(** * SafeRoom backend: the MQTT-to-MongoDB bridge and its REST queries

    A shallow embedding of [backend/mqtt_to_mongo.py].

    - A Python value is a [value]; a [dict] is a finite map from keys to
      values, so a key is bound at most once, as in Python.
    - An instant ([datetime]) is an integer count of milliseconds since the
      epoch, the resolution at which the store keeps a date.
    - A Python [float] is a binary64 number ([PrimFloat.float]).
    - A statement either returns or raises: [outcome].
    - The three collections are lists of records in insertion order; every
      call to the store driver is logged as an [event], so that the number
      of collection scans a route performs can be read off its run.
    - [json.loads] is a parameter of the bridge. *)

From Stdlib Require Import ZArith PrimFloat SpecFloat FloatOps.
From stdpp Require Import gmap strings list fin_maps sorting.

Set Warnings "-register-all,-inexact-float".
Local Open Scope Z_scope.

(** ** Python values and exceptions *)

Inductive value : Type :=
| VNull
| VBool (b : bool)
| VInt (n : Z)
| VFloat (x : float)
| VStr (s : string)
| VList (vs : list value)
| VDict (kvs : gmap string value)
| VDate (t : Z)        (* a datetime *)
| VIso (t : Z).        (* the str that [t.isoformat()] yields *)

Abbreviation document := (gmap string value).

(** Every exception the modelled calls raise derives from [Exception]. *)
Inductive exn : Type :=
| JSONDecodeError | UnicodeDecodeError
| TypeError | KeyError | AttributeError | OverflowError
| PyMongoError.

Inductive outcome (A : Type) : Type :=
| Ok (a : A)
| Raise (e : exn).
Arguments Ok {A} a.
Arguments Raise {A} e.

#[global] Instance outcome_ret : MRet outcome := λ A a, Ok a.
#[global] Instance outcome_bind : MBind outcome := λ A B f m,
  match m with
  | Ok a => f a
  | Raise e => Raise e
  end.

(** [d[k]] and [d[k] = x]. *)
Definition getitem (d : document) (k : string) : outcome value :=
  match d !! k with
  | Some v => Ok v
  | None => Raise KeyError
  end.

Definition setitem (v : value) (k : string) (x : value) : outcome value :=
  match v with
  | VDict d => Ok (VDict (<[k := x]> d))
  | _ => Raise TypeError
  end.

(** ** The store *)

Inductive coll_name : Type := SensorReadings | StatusLogs | Alerts.

#[global] Instance coll_name_eq_dec : EqDecision coll_name.
Proof. solve_decision. Defined.

(** The [_id] of a record: generated by the driver, or the payload's own. *)
Inductive ident : Type :=
| Oid (n : N)
| Given (v : value).

Record record : Type := { doc_id : ident; body : document }.

Record store : Type := {
  sensor_readings : list record;
  status_logs : list record;
  alerts : list record;
  next_oid : N
}.

Definition empty_store : store :=
  {| sensor_readings := []; status_logs := []; alerts := []; next_oid := 0%N |}.

Definition coll (c : coll_name) (s : store) : list record :=
  match c with
  | SensorReadings => sensor_readings s
  | StatusLogs => status_logs s
  | Alerts => alerts s
  end.

Definition with_id (d : document) (s : store) : record :=
  match d !! "_id" with
  | Some v => {| doc_id := Given v; body := delete "_id" d |}
  | None => {| doc_id := Oid (next_oid s); body := d |}
  end.

Definition append (c : coll_name) (d : document) (s : store) : store :=
  let r := with_id d s in
  let n := match doc_id r with Oid _ => N.succ (next_oid s) | Given _ => next_oid s end in
  match c with
  | SensorReadings =>
      {| sensor_readings := sensor_readings s ++ [r]; status_logs := status_logs s;
         alerts := alerts s; next_oid := n |}
  | StatusLogs =>
      {| sensor_readings := sensor_readings s; status_logs := status_logs s ++ [r];
         alerts := alerts s; next_oid := n |}
  | Alerts =>
      {| sensor_readings := sensor_readings s; status_logs := status_logs s;
         alerts := alerts s ++ [r]; next_oid := n |}
  end.

(** A filter document: [{'timestamp': {'$gte': since}}], optionally with
    [{'type': ty}]; [{}] when both are absent. *)
Record query : Type := { q_since : option Z; q_type : option string }.

Inductive log_line : Type :=
| Saved (c : coll_name)
| Failed (e : exn).

Inductive event : Type :=
| EvInsertOne (c : coll_name) (d : value)
| EvFind (c : coll_name) (q : query) (limit : Z)
| EvFindOne (c : coll_name)
| EvCountDocuments (c : coll_name) (q : query)
| EvAggregate (c : coll_name) (q : query)
| EvPrint (l : log_line).

(** ** Programs: store state, raised exceptions and the log of events *)

Definition M (A : Type) : Type := store → outcome A * store * list event.

#[global] Instance M_ret : MRet M := λ A a s, (Ok a, s, []).
#[global] Instance M_bind : MBind M := λ A B f m s,
  match m s with
  | (Ok a, s', tr) => let '(r, s'', tr') := f a s' in (r, s'', tr ++ tr')
  | (Raise e, s', tr) => (Raise e, s', tr)
  end.

Definition lift {A} (o : outcome A) : M A := λ s, (o, s, []).

(** [try: body / except Exception as e: handler e]. *)
Definition try_except {A} (body : M A) (handler : exn → M A) : M A := λ s,
  match body s with
  | (Ok a, s', tr) => (Ok a, s', tr)
  | (Raise e, s', tr) => let '(r, s'', tr') := handler e s' in (r, s'', tr ++ tr')
  end.

Definition print (l : log_line) : M () := λ s, (Ok (), s, [EvPrint l]).

Definition result {A} (x : outcome A * store * list event) : outcome A := x.1.1.
Definition final {A} (x : outcome A * store * list event) : store := x.1.2.
Definition trace {A} (x : outcome A * store * list event) : list event := x.2.

(** [collection.insert_one(doc)]. [fault] is what the driver raises for this
    write, if anything (server unreachable, duplicate [_id], ...). *)
Definition insert_one (fault : option exn) (c : coll_name) (doc : value) : M () := λ s,
  match doc with
  | VDict d =>
      match fault with
      | Some e => (Raise e, s, [EvInsertOne c doc])
      | None => (Ok (), append c d s, [EvInsertOne c doc])
      end
  | _ => (Raise TypeError, s, [])
  end.

(** ** MQTT callbacks *)

Definition TOPIC_SENSORS : string := "room/sensors".
Definition TOPIC_STATUS : string := "room/status".
Definition TOPIC_ALERT : string := "room/alert".

Record MQTTMessage : Type := { topic : string; payload : list Byte.byte }.

(** The topics [on_connect] subscribes to, given the connect return code. *)
Definition on_connect (rc : Z) : list string :=
  if decide (rc = 0) then [TOPIC_SENSORS; TOPIC_STATUS; TOPIC_ALERT] else [].

(** One delivery to the listener: the clock reading at receipt, what the
    store driver does with the write, and the message. *)
Record delivery : Type := { at_time : Z; write_fault : option exn; message : MQTTMessage }.

Section Bridge.

(** [json.loads(b.decode())]. *)
Variable json_loads : list Byte.byte → outcome value.

Definition on_message (utcnow : Z) (fault : option exn) (msg : MQTTMessage) : M () :=
  try_except
    (let topic := topic msg in
     payload ← lift (json_loads (payload msg));
     let timestamp := utcnow in
     payload ← lift (setitem payload "timestamp" (VDate timestamp));
     if decide (topic = TOPIC_SENSORS) then
       insert_one fault SensorReadings payload;;
       print (Saved SensorReadings)
     else if decide (topic = TOPIC_STATUS) then
       insert_one fault StatusLogs payload;;
       print (Saved StatusLogs)
     else if decide (topic = TOPIC_ALERT) then
       insert_one fault Alerts payload;;
       print (Saved Alerts)
     else mret ())
    (λ e, print (Failed e)).

(** The message loop: callbacks run in order of arrival; an exception
    that escapes a callback ends the loop. *)
Fixpoint loop_forever (inbox : list delivery) : M () :=
  match inbox with
  | [] => mret ()
  | d :: rest =>
      on_message (at_time d) (write_fault d) (message d);;
      loop_forever rest
  end.

Definition malformed (msg : MQTTMessage) : Prop :=
  ∃ e, json_loads (payload msg) = Raise e.

Definition well_formed (msg : MQTTMessage) (d : document) : Prop :=
  json_loads (payload msg) = Ok (VDict d).

End Bridge.

(** ** Numbers *)

Definition round_half_even (num den : Z) : Z :=
  let q := num / den in
  match 2 * (num mod den) ?= den with
  | Lt => q
  | Gt => q + 1
  | Eq => if Z.even q then q else q + 1
  end.

(** [round(x, 1)] on a float: the decimal with one digit after the point
    nearest to the exact value of [x], ties to even, read back as the
    nearest binary64. *)
Definition float_round1 (x : float) : float :=
  match Prim2SF x with
  | S754_finite s m e =>
      let tenths := if 0 <=? e then 10 * Zpos m * 2 ^ e
                    else round_half_even (10 * Zpos m) (2 ^ (- e)) in
      match tenths with
      | Zpos n => SF2Prim (SFdiv prec emax (S754_finite s n 0) (S754_finite false 10 0))
      | _ => if s then (-0)%float else 0%float
      end
  | _ => x
  end.

(** [round(v, 1)]: an int (a bool is one) stays an int. *)
Definition round1 (v : value) : outcome value :=
  match v with
  | VInt n => Ok (VInt n)
  | VBool b => Ok (VInt (Z.b2z b))
  | VFloat x => Ok (VFloat (float_round1 x))
  | _ => Raise TypeError
  end.

Definition float_of_Z (n : Z) : float := SF2Prim (binary_normalize prec emax n 0 false).

Definition number_of (v : value) : option float :=
  match v with
  | VInt n => Some (float_of_Z n)
  | VFloat x => Some x
  | _ => None
  end.

(** The exact value of a number, for comparisons between ints and doubles. *)
Inductive xnum : Type := XNaN | XNegInf | XFin (m e : Z) | XPosInf.

Definition xnum_of_float (x : float) : xnum :=
  match Prim2SF x with
  | S754_zero _ => XFin 0 0
  | S754_infinity s => if s then XNegInf else XPosInf
  | S754_nan => XNaN
  | S754_finite s m e => XFin (cond_Zopp s (Zpos m)) e
  end.

Definition xnum_leb (a b : xnum) : bool :=
  match a, b with
  | XNaN, _ => true
  | _, XNaN => false
  | XNegInf, _ => true
  | _, XNegInf => false
  | _, XPosInf => true
  | XPosInf, _ => false
  | XFin m1 e1, XFin m2 e2 =>
      let e := Z.min e1 e2 in m1 * 2 ^ (e1 - e) <=? m2 * 2 ^ (e2 - e)
  end.

(** ** What the store does with a filter, a sort and an accumulator *)

Definition gte_date (since : Z) (v : value) : bool :=
  match v with
  | VDate t => bool_decide (since ≤ t)
  | _ => false
  end.

Definition eq_str (s : string) (v : value) : bool :=
  match v with
  | VStr s' => bool_decide (s' = s)
  | _ => false
  end.

(** A condition on a field holds of the field's value or, when the value
    is an array, of one of its elements; never of a missing field. *)
Definition field_matches (p : value → bool) (o : option value) : bool :=
  match o with
  | Some (VList vs) => existsb p vs
  | Some v => p v
  | None => false
  end.

Definition matches (q : query) (d : document) : bool :=
  match q_since q with
  | Some since => field_matches (gte_date since) (d !! "timestamp")
  | None => true
  end
  &&
  match q_type q with
  | Some ty => field_matches (eq_str ty) (d !! "type")
  | None => true
  end.

(** The place of a value in the store's order across types, and inside the
    dates. The order between two values of one other type is left open:
    no route gets past such a timestamp. *)
Definition order_key (v : value) : nat * Z :=
  match v with
  | VNull => (1%nat, 0)
  | VInt _ | VFloat _ => (2%nat, 0)
  | VStr _ | VIso _ => (3%nat, 0)
  | VDict _ => (4%nat, 0)
  | VList _ => (5%nat, 0)
  | VBool _ => (8%nat, 0)
  | VDate t => (9%nat, t)
  end.

Definition key_leb (a b : nat * Z) : bool :=
  (a.1 <? b.1)%nat || ((a.1 =? b.1)%nat && (a.2 <=? b.2)).

Definition key_max (a b : nat * Z) : nat * Z := if key_leb a b then b else a.

(** The key of a record under [sort('timestamp', -1)]: a missing field
    counts as null, an array as its greatest element. *)
Definition sort_key (d : document) : nat * Z :=
  match d !! "timestamp" with
  | Some (VList vs) => foldr key_max (0%nat, 0) (order_key <$> vs)
  | Some v => order_key v
  | None => (1%nat, 0)
  end.

Definition newer_first : relation document :=
  λ d1 d2, key_leb (sort_key d2) (sort_key d1) = true.

#[global] Instance newer_first_dec : RelDecision newer_first :=
  λ d1 d2, decide (key_leb (sort_key d2) (sort_key d1) = true).

(** [cursor.limit(n)]: 0 is no limit; a negative [n] asks for one batch of
    [|n|] records (the size the server caps a batch at is not modelled). *)
Definition cursor_limit {A} (limit : Z) (l : list A) : list A :=
  if decide (limit = 0) then l else take (Z.abs_nat limit) l.

(** The order inside the numbers, the booleans, the dates and the strings,
    and across types; two arrays or two objects are not told apart. *)
Definition bson_leb (a b : value) : bool :=
  let ra := (order_key a).1 in
  let rb := (order_key b).1 in
  if (ra <? rb)%nat then true
  else if (rb <? ra)%nat then false
  else match a, b with
       | VInt m, VInt n => m <=? n
       | VInt m, VFloat y => xnum_leb (XFin m 0) (xnum_of_float y)
       | VFloat x, VInt n => xnum_leb (xnum_of_float x) (XFin n 0)
       | VFloat x, VFloat y => xnum_leb (xnum_of_float x) (xnum_of_float y)
       | VBool x, VBool y => implb x y
       | VDate s, VDate t => s <=? t
       | VStr s, VStr t => String.leb s t
       | _, _ => true
       end.

(** [$avg]: sum and count of the numeric values; anything else is skipped.
    The sum is taken in double arithmetic in the order of the documents. *)
Definition avg_state : Type := float * nat.

Definition avg_add (a : avg_state) (o : option value) : avg_state :=
  match o ≫= number_of with
  | Some x => ((a.1 + x)%float, S a.2)
  | None => a
  end.

Definition avg_result (a : avg_state) : value :=
  match a.2 with
  | O => VNull
  | S _ => VFloat (a.1 / float_of_Z (Z.of_nat a.2))%float
  end.

(** [$max]: the greatest value that is neither null nor missing, the
    earlier of two equal ones; null when there is none. *)
Definition max_add (a : value) (o : option value) : value :=
  match o with
  | None | Some VNull => a
  | Some v =>
      match a with
      | VNull => v
      | _ => if bson_leb v a then a else v
      end
  end.

Record agg_row : Type := { row_avg_temp : value; row_max_temp : value; row_avg_humidity : value }.

Definition group_state : Type := avg_state * value * avg_state.

Definition group_init : group_state := ((0%float, 0%nat), VNull, (0%float, 0%nat)).

(** One document through the [$group] stage: the three accumulators move
    together. *)
Definition group_step (g : group_state) (d : document) : group_state :=
  (avg_add g.1.1 (d !! "temp"), max_add g.1.2 (d !! "temp"), avg_add g.2 (d !! "humidity")).

(** [{'$group': {'_id': None, ...}}]: one row, none when nothing came in. *)
Definition group (docs : list document) : list agg_row :=
  match docs with
  | [] => []
  | _ :: _ =>
      let g := foldl group_step group_init docs in
      [ {| row_avg_temp := avg_result g.1.1;
           row_max_temp := g.1.2;
           row_avg_humidity := avg_result g.2 |} ]
  end.

(** ** Driver calls of the query side; [{'_id': 0}] is the projection [body]

    The store promises no order between records of equal sort key; the
    sort below fixes one, and no statement depends on which. *)

Definition find (c : coll_name) (q : query) (limit : Z) : M (list document) := λ s,
  (Ok (cursor_limit limit (merge_sort newer_first (filter (matches q) (body <$> coll c s)))),
   s, [EvFind c q limit]).

Definition find_one (c : coll_name) : M (option document) := λ s,
  (Ok (head (merge_sort newer_first (body <$> coll c s))), s, [EvFindOne c]).

Definition count_documents (c : coll_name) (q : query) : M nat := λ s,
  (Ok (length (filter (matches q) (body <$> coll c s))), s, [EvCountDocuments c q]).

Definition aggregate (c : coll_name) (q : query) : M (list agg_row) := λ s,
  (Ok (group (filter (matches q) (body <$> coll c s))), s, [EvAggregate c q]).

(** ** Flask routes *)

(** [request.args] as [get(key, default, type=int)] reads it: [None] when
    the parameter is absent or is not an integer. *)
Record args : Type := { arg_hours : option Z; arg_limit : option Z }.

Definition args_get (a : option Z) (default : Z) : Z :=
  match a with
  | Some n => n
  | None => default
  end.

Definition MS_PER_HOUR : Z := 3600000.
Definition DATETIME_MIN : Z := -62135596800000.   (* 0001-01-01T00:00:00 *)
Definition DATETIME_MAX : Z := 253402300799999.   (* 9999-12-31T23:59:59.999 *)

(** [datetime.utcnow() - timedelta(hours=hours)]. *)
Definition minus_hours (utcnow hours : Z) : outcome Z :=
  let t := utcnow - hours * MS_PER_HOUR in
  if bool_decide (DATETIME_MIN ≤ t ≤ DATETIME_MAX) then Ok t else Raise OverflowError.

Definition isoformat (v : value) : outcome value :=
  match v with
  | VDate t => Ok (VIso t)
  | _ => Raise AttributeError
  end.

(** [r['timestamp'] = r['timestamp'].isoformat()]. *)
Definition timestamp_to_iso (r : document) : outcome document :=
  v ← getitem r "timestamp";
  iso ← isoformat v;
  mret (<["timestamp" := iso]> r).

(** [jsonify(x)]: the body of the response is [x] as it stands. *)
Definition jsonify {A} (x : A) : M A := mret x.

Definition since_query (since : Z) : query :=
  {| q_since := Some since; q_type := None |}.

Definition since_type_query (since : Z) (ty : string) : query :=
  {| q_since := Some since; q_type := Some ty |}.

Definition get_sensors (request : args) (utcnow : Z) : M (list document) :=
  let hours := args_get (arg_hours request) 24 in
  let limit := args_get (arg_limit request) 100 in
  since ← lift (minus_hours utcnow hours);
  readings ← find SensorReadings (since_query since) limit;
  readings ← lift (mapM timestamp_to_iso readings);
  jsonify readings.

Definition get_latest_sensor (request : args) : M document :=
  reading ← find_one SensorReadings;
  match reading with
  | Some r =>
      if bool_decide (size r ≠ 0%nat) then
        r ← lift (timestamp_to_iso r);
        jsonify r
      else jsonify ∅
  | None => jsonify ∅
  end.

Definition get_alerts (request : args) (utcnow : Z) : M (list document) :=
  let hours := args_get (arg_hours request) 24 in
  let limit := args_get (arg_limit request) 50 in
  since ← lift (minus_hours utcnow hours);
  alert_list ← find Alerts (since_query since) limit;
  alert_list ← lift (mapM timestamp_to_iso alert_list);
  jsonify alert_list.

Definition get_status (request : args) : M document :=
  status ← find_one StatusLogs;
  match status with
  | Some r =>
      if bool_decide (size r ≠ 0%nat) then
        r ← lift (timestamp_to_iso r);
        jsonify r
      else jsonify ∅
  | None => jsonify ∅
  end.

Record stats : Type := {
  total_readings : nat;
  total_alerts : nat;
  burglar_alerts : nat;
  fire_alerts : nat;
  avg_temp : value;
  max_temp : value;
  avg_humidity : value
}.

(** [round(agg_result[0][f], 1) if agg_result else 0]. *)
Definition rounded (agg_result : list agg_row) (f : agg_row → value) : outcome value :=
  match agg_result with
  | row :: _ => round1 (f row)
  | [] => Ok (VInt 0)
  end.

Definition get_stats (request : args) (utcnow : Z) : M stats :=
  let hours := args_get (arg_hours request) 24 in
  since ← lift (minus_hours utcnow hours);
  total_readings ← count_documents SensorReadings (since_query since);
  total_alerts ← count_documents Alerts (since_query since);
  burglar_alerts ← count_documents Alerts (since_type_query since "burglar");
  fire_alerts ← count_documents Alerts (since_type_query since "fire");
  agg_result ← aggregate SensorReadings (since_query since);
  avg_temp ← lift (rounded agg_result row_avg_temp);
  max_temp ← lift (rounded agg_result row_max_temp);
  avg_humidity ← lift (rounded agg_result row_avg_humidity);
  jsonify {| total_readings := total_readings;
             total_alerts := total_alerts;
             burglar_alerts := burglar_alerts;
             fire_alerts := fire_alerts;
             avg_temp := avg_temp;
             max_temp := max_temp;
             avg_humidity := avg_humidity |}.

(** ** Vocabulary of the statements *)

(** The channel table: which collection a topic is stored in. *)
Definition channels : list (string * coll_name) :=
  [(TOPIC_SENSORS, SensorReadings); (TOPIC_STATUS, StatusLogs); (TOPIC_ALERT, Alerts)].

(** The payload as the callback hands it to the driver. *)
Definition stamp (utcnow : Z) (d : document) : document :=
  <["timestamp" := VDate utcnow]> d.

(** The bindings a document has for a key. *)
Definition bindings (k : string) (d : document) : list (string * value) :=
  filter (λ kv, kv.1 = k) (map_to_list d).

Definition is_insert (ev : event) : bool :=
  match ev with
  | EvInsertOne _ _ => true
  | _ => false
  end.

Definition inserts (tr : list event) : list event := filter is_insert tr.

Definition stamped (d : document) : Prop :=
  ∃ t, d !! "timestamp" = Some (VDate t).

Definition all_stamped (s : store) : Prop :=
  ∀ c r, r ∈ coll c s → stamped (body r).

(** The store states the listener alone can produce, from an empty store. *)
Inductive reachable (json_loads : list Byte.byte → outcome value) : store → Prop :=
| reach_empty : reachable json_loads empty_store
| reach_message s utcnow fault msg :
    reachable json_loads s →
    reachable json_loads (final (on_message json_loads utcnow fault msg s)).

(** The instant a record is stamped with, as a datetime in the store or as
    ISO text in a response. *)
Definition time_of (d : document) : option Z :=
  match d !! "timestamp" with
  | Some (VDate t) | Some (VIso t) => Some t
  | _ => None
  end.

Definition no_older (a b : document) : Prop :=
  ∃ ta tb, time_of a = Some ta ∧ time_of b = Some tb ∧ tb ≤ ta.

Definition strictly_newer (a b : document) : Prop :=
  ∃ ta tb, time_of a = Some ta ∧ time_of b = Some tb ∧ tb < ta.

(** Newest first: no record is older than one that comes after it. *)
Definition newest_first (l : list document) : Prop := StronglySorted no_older l.

Definition strictly_newest_first (l : list document) : Prop :=
  StronglySorted strictly_newer l.

(** What [find(q, {'_id': 0}).sort('timestamp', -1).limit(limit)] yields. *)
Definition found (c : coll_name) (q : query) (limit : Z) (s : store) : list document :=
  cursor_limit limit (merge_sort newer_first (filter (matches q) (body <$> coll c s))).

Definition returns {A} (o : outcome A) : Prop := ∃ a, o = Ok a.

(** What [find_one({}, {'_id': 0}, sort=[('timestamp', -1)])] yields. *)
Definition found_one (c : coll_name) (s : store) : option document :=
  head (merge_sort newer_first (body <$> coll c s)).

(** ** Sample data *)

Definition reading (t : Z) (temp humidity : float) : document :=
  {[ "timestamp" := VDate t; "temp" := VFloat temp; "humidity" := VFloat humidity ]}.

Definition alert (t : Z) (ty message : string) : document :=
  {[ "timestamp" := VDate t; "type" := VStr ty; "message" := VStr message ]}.

Definition stored (n : N) (d : document) : record := {| doc_id := Oid n; body := d |}.

Definition as_iso (t : Z) (d : document) : document := <["timestamp" := VIso t]> d.

(** Two readings received in the same millisecond. *)
Definition two_at_once : store :=
  {| sensor_readings := [stored 0 (reading 1000 20.5 40); stored 1 (reading 1000 21.5 41)];
     status_logs := [];
     alerts := [stored 2 (alert 1000 "fire" "smoke detected")];
     next_oid := 3 |}.

Definition three_readings : store :=
  {| sensor_readings := [stored 0 (reading 1000 20.5 40); stored 1 (reading 3000 21.5 41);
                         stored 2 (reading 2000 22.5 42)];
     status_logs := [];
     alerts := [];
     next_oid := 3 |}.

Definition one_old_each : store :=
  {| sensor_readings := [stored 0 (reading 1000 20.5 40); stored 1 (reading 3000 21.5 41);
                         stored 2 (reading 2000 22.5 42)];
     status_logs := [stored 3 {[ "timestamp" := VDate 500; "door" := VStr "open" ]}];
     alerts := [];
     next_oid := 4 |}.

(** The records of a collection that pass a filter. *)
Definition window (c : coll_name) (q : query) (s : store) : list document :=
  filter (matches q) (body <$> coll c s).

(** The window of the glossary: from now - hours up to now. *)
Definition inside_window (utcnow hours : Z) (d : document) : Prop :=
  ∃ t, time_of d = Some t ∧ utcnow - hours * MS_PER_HOUR ≤ t ≤ utcnow.

(** The calls [get_stats] makes to the store for a given [since]. *)
Definition stats_calls (since : Z) : list event :=
  [ EvCountDocuments SensorReadings (since_query since);
    EvCountDocuments Alerts (since_query since);
    EvCountDocuments Alerts (since_type_query since "burglar");
    EvCountDocuments Alerts (since_type_query since "fire");
    EvAggregate SensorReadings (since_query since) ].

(** A record that no listener wrote: it has no timestamp. *)
Definition one_unstamped : store :=
  {| sensor_readings := [stored 0 {[ "temp" := VFloat 20.5; "humidity" := VFloat 40 ]}];
     status_logs := [];
     alerts := [];
     next_oid := 1 |}.

(** A reading stamped after the moment of the query. *)
Definition one_from_the_future : store :=
  {| sensor_readings := [stored 0 (reading 3000 20.5 40)];
     status_logs := [];
     alerts := [];
     next_oid := 1 |}.

(** A decoder that knows three payloads and rejects everything else. *)
Definition BYTES_READING : list Byte.byte :=   (* {"temp":21.35,"humidity":40.0} *)
  [Byte.x7b; Byte.x22; Byte.x74; Byte.x65; Byte.x6d; Byte.x70; Byte.x22; Byte.x3a;
   Byte.x32; Byte.x31; Byte.x2e; Byte.x33; Byte.x35; Byte.x2c; Byte.x22; Byte.x68;
   Byte.x75; Byte.x6d; Byte.x69; Byte.x64; Byte.x69; Byte.x74; Byte.x79; Byte.x22;
   Byte.x3a; Byte.x34; Byte.x30; Byte.x2e; Byte.x30; Byte.x7d].

Definition BYTES_STATUS : list Byte.byte :=    (* {"door":"open","timestamp":"noon"} *)
  [Byte.x7b; Byte.x22; Byte.x64; Byte.x6f; Byte.x6f; Byte.x72; Byte.x22; Byte.x3a;
   Byte.x22; Byte.x6f; Byte.x70; Byte.x65; Byte.x6e; Byte.x22; Byte.x2c; Byte.x22;
   Byte.x74; Byte.x69; Byte.x6d; Byte.x65; Byte.x73; Byte.x74; Byte.x61; Byte.x6d;
   Byte.x70; Byte.x22; Byte.x3a; Byte.x22; Byte.x6e; Byte.x6f; Byte.x6f; Byte.x6e;
   Byte.x22; Byte.x7d].

Definition BYTES_TEMP_ONLY : list Byte.byte := (* {"temp":21.35} *)
  [Byte.x7b; Byte.x22; Byte.x74; Byte.x65; Byte.x6d; Byte.x70; Byte.x22; Byte.x3a;
   Byte.x32; Byte.x31; Byte.x2e; Byte.x33; Byte.x35; Byte.x7d].

Definition BYTES_TRUNCATED : list Byte.byte := (* {"temp": *)
  [Byte.x7b; Byte.x22; Byte.x74; Byte.x65; Byte.x6d; Byte.x70; Byte.x22; Byte.x3a].

Definition same_bytes (a b : list Byte.byte) : bool :=
  bool_decide (Byte.to_N <$> a = Byte.to_N <$> b).

Definition sample_loads (b : list Byte.byte) : outcome value :=
  if same_bytes b BYTES_READING then
    Ok (VDict {[ "temp" := VFloat 21.35; "humidity" := VFloat 40 ]})
  else if same_bytes b BYTES_STATUS then
    Ok (VDict {[ "door" := VStr "open"; "timestamp" := VStr "noon" ]})
  else if same_bytes b BYTES_TEMP_ONLY then
    Ok (VDict {[ "temp" := VFloat 21.35 ]})
  else Raise JSONDecodeError.

Definition reading_message : MQTTMessage :=
  {| topic := TOPIC_SENSORS; payload := BYTES_READING |}.

Definition status_message : MQTTMessage :=
  {| topic := TOPIC_STATUS; payload := BYTES_STATUS |}.

Definition temp_only_message : MQTTMessage :=
  {| topic := TOPIC_SENSORS; payload := BYTES_TEMP_ONLY |}.

Definition truncated_message : MQTTMessage :=
  {| topic := TOPIC_SENSORS; payload := BYTES_TRUNCATED |}.

(** ** The data model of the specification *)

(** A SensorReading: an instant, a temperature and a humidity, both floats. *)
Definition sensor_reading (d : document) : Prop :=
  stamped d ∧ (∃ x, d !! "temp" = Some (VFloat x)) ∧ (∃ x, d !! "humidity" = Some (VFloat x)).

(** ** Each aggregate in a pass of its own

    What a [$group] stage holding the one accumulator [{'$avg': '$field'}],
    or [{'$max': '$field'}], yields over [docs]. *)




(** ** Reference: each statistic on its own, as the specification words it

    Every definition takes the records of the window as they are given:
    the sensor readings, or the alerts, that pass the filter on the
    timestamp. *)

Module Reference.

Definition a_number (o : option value) : option value :=
  match o with
  | Some (VInt n) => Some (VInt n)
  | Some (VFloat x) => Some (VFloat x)
  | _ => None
  end.


(** The humidity of a reading: its humidity, when that is a number. *)
Definition humidity (d : document) : option value := a_number (d !! "humidity").


(** The value of a number, exactly. *)
Definition exact (v : value) : xnum :=
  match v with
  | VInt n => XFin n 0
  | VFloat x => xnum_of_float x
  | _ => XNaN
  end.

Definition float_leb (x y : float) : bool := xnum_leb (xnum_of_float x) (xnum_of_float y).

Definition leb (a b : value) : bool := xnum_leb (exact a) (exact b).



(** The greatest of numbers, the earlier of two equal ones. *)
Definition maximum (v : value) (vs : list value) : value :=
  foldl (λ m y, if leb y m then m else y) v vs.







End Reference.

(** A field that [$max] passes over, missing or null, or that holds a
    number. *)
Definition number_or_nothing (o : option value) : Prop :=
  o = None ∨ o = Some VNull ∨ is_Some (Reference.a_number o).

Definition is_scan (ev : event) : bool :=
  match ev with
  | EvFind _ _ _ | EvFindOne _ | EvCountDocuments _ _ | EvAggregate _ _ => true
  | EvInsertOne _ _ | EvPrint _ => false
  end.

(** The store after the listener has received [temp_only_message] once. *)
Definition after_temp_only : store :=
  final (on_message sample_loads 1000 None temp_only_message empty_store).

(** The store after the listener has received [reading_message] once. *)
Definition after_one_reading : store :=
  final (on_message sample_loads 1000 None reading_message empty_store).

(** Readings that never pass the filter on the timestamp: one without a
    timestamp, one whose timestamp is text, and one stamped long before. *)
Definition never_since : store :=
  {| sensor_readings :=
       [stored 0 {[ "temp" := VFloat 20.5; "humidity" := VFloat 40 ]};
        stored 1 {[ "timestamp" := VStr "noon"; "temp" := VFloat 21.5;
                    "humidity" := VFloat 41 ]};
        stored 2 (reading 1000 22.5 42)];
     status_logs := [];
     alerts := [];
     next_oid := 3 |}.





(** ** The rest of the module: configuration and the health route *)

(** [os.getenv(name, default)] over the environment of the process. *)
Definition getenv (environ : gmap string string) (name default : string) : string :=
  match environ !! name with
  | Some v => v
  | None => default
  end.

Definition MQTT_BROKER (environ : gmap string string) : string :=
  getenv environ "MQTT_BROKER" "localhost".

Definition MONGO_URI (environ : gmap string string) : string :=
  getenv environ "MONGO_URI" "mongodb://localhost:27017".

Definition MONGO_DB (environ : gmap string string) : string :=
  getenv environ "MONGO_DB" "room_safety".

Definition health_check (environ : gmap string string) (request : args) : M document :=
  jsonify {[ "status" := VStr "ok";
             "mqtt_broker" := VStr (MQTT_BROKER environ);
             "mongo_db" := VStr (MONGO_DB environ) ]}.

(** ** More vocabulary *)

(** How many records the three collections hold together. *)
Definition records (s : store) : nat :=
  (length (sensor_readings s) + length (status_logs s) + length (alerts s))%nat.

Definition prints (tr : list event) : list log_line :=
  omap (λ ev, match ev with EvPrint l => Some l | _ => None end) tr.

(** A delivery that ends in a stored record: the payload decodes to an
    object, the topic is a subscribed one and the driver takes the write. *)
Definition storable (json_loads : list Byte.byte → outcome value) (d : delivery) : bool :=
  match json_loads (payload (message d)), write_fault d with
  | Ok (VDict _), None => bool_decide (topic (message d) ∈ on_connect 0)
  | _, _ => false
  end.

(** The stored form of a payload: stamped, its own [_id] taken out. *)
Definition stored_body (utcnow : Z) (d : document) : document :=
  delete "_id" (stamp utcnow d).

Definition is_number (v : value) : Prop := ∃ x, number_of v = Some x.


(** A run that leaves the store as it found it and makes at most [n] calls
    to it, every one of them a read. *)
Definition reads_only {A} (n : nat) (s : store) (x : outcome A * store * list event) : Prop :=
  final x = s ∧ Forall (λ ev, is_scan ev = true) (trace x) ∧ (length (trace x) ≤ n)%nat.

(** ** More sample data *)

Definition BYTES_ALERT : list Byte.byte :=     (* {"type":"fire"} *)
  [Byte.x7b; Byte.x22; Byte.x74; Byte.x79; Byte.x70; Byte.x65; Byte.x22; Byte.x3a;
   Byte.x22; Byte.x66; Byte.x69; Byte.x72; Byte.x65; Byte.x22; Byte.x7d].

Definition BYTES_LIST : list Byte.byte :=      (* [1] *)
  [Byte.x5b; Byte.x31; Byte.x5d].

Definition BYTES_WITH_ID : list Byte.byte :=   (* {"_id":7,"temp":21.35,"humidity":40.0} *)
  [Byte.x7b; Byte.x22; Byte.x5f; Byte.x69; Byte.x64; Byte.x22; Byte.x3a; Byte.x37;
   Byte.x2c; Byte.x22; Byte.x74; Byte.x65; Byte.x6d; Byte.x70; Byte.x22; Byte.x3a;
   Byte.x32; Byte.x31; Byte.x2e; Byte.x33; Byte.x35; Byte.x2c; Byte.x22; Byte.x68;
   Byte.x75; Byte.x6d; Byte.x69; Byte.x64; Byte.x69; Byte.x74; Byte.x79; Byte.x22;
   Byte.x3a; Byte.x34; Byte.x30; Byte.x2e; Byte.x30; Byte.x7d].

(** A decoder that knows three payloads more than [sample_loads]. *)
Definition more_loads (b : list Byte.byte) : outcome value :=
  if same_bytes b BYTES_ALERT then Ok (VDict {[ "type" := VStr "fire" ]})
  else if same_bytes b BYTES_LIST then Ok (VList [VInt 1])
  else if same_bytes b BYTES_WITH_ID then
    Ok (VDict {[ "_id" := VInt 7; "temp" := VFloat 21.35; "humidity" := VFloat 40 ]})
  else sample_loads b.

Definition alert_message : MQTTMessage :=
  {| topic := TOPIC_ALERT; payload := BYTES_ALERT |}.

Definition list_message : MQTTMessage :=
  {| topic := TOPIC_SENSORS; payload := BYTES_LIST |}.

Definition with_id_message : MQTTMessage :=
  {| topic := TOPIC_SENSORS; payload := BYTES_WITH_ID |}.

(** A reading published on a topic the listener does not subscribe to. *)
Definition stray_message : MQTTMessage :=
  {| topic := "room/other"; payload := BYTES_READING |}.

(** Readings whose numbers are integers here and floats there. *)
Definition mixed_numbers : store :=
  {| sensor_readings :=
       [stored 0 {[ "timestamp" := VDate 1000; "temp" := VInt 21; "humidity" := VFloat 40 ]};
        stored 1 {[ "timestamp" := VDate 1500; "temp" := VFloat 22.5; "humidity" := VInt 41 ]}];
     status_logs := [];
     alerts := [];
     next_oid := 2 |}.

(** The store after the listener has received [with_id_message] once. *)
Definition after_with_id : store :=
  final (on_message more_loads 1000 None with_id_message empty_store).

Definition sample_environ : gmap string string :=
  {[ "MQTT_BROKER" := "broker.lan"; "MONGO_URI" := "mongodb://db-a:27017" ]}.

Definition other_environ : gmap string string :=
  {[ "MQTT_BROKER" := "broker.lan"; "MONGO_URI" := "mongodb://db-b:27017";
     "API_PORT" := "8080" ]}.
(** ** The listener *)

Section BridgeFacts.

Variable json_loads : list Byte.byte → outcome value.

Abbreviation on_message' := (on_message json_loads).

Ltac run_callback :=
  unfold on_message, try_except, insert_one, print, lift, setitem;
  unfold mbind, M_bind, mret, M_ret; cbn.

Lemma on_message_decode_error utcnow fault msg s e :
  json_loads (payload msg) = Raise e →
  on_message' utcnow fault msg s = (Ok (), s, [EvPrint (Failed e)]).
Proof. intros E. run_callback. by rewrite E. Qed.

Lemma on_message_not_dict utcnow fault msg s v :
  json_loads (payload msg) = Ok v →
  (∀ d, v ≠ VDict d) →
  on_message' utcnow fault msg s = (Ok (), s, [EvPrint (Failed TypeError)]).
Proof.
  intros E Hv. run_callback. rewrite E.
  destruct v; try reflexivity. by destruct (Hv kvs).
Qed.

Lemma routed_cases (t : string) c :
  (t, c) ∈ channels →
  (t = TOPIC_SENSORS ∧ c = SensorReadings)
  ∨ (t = TOPIC_STATUS ∧ c = StatusLogs)
  ∨ (t = TOPIC_ALERT ∧ c = Alerts).
Proof.
  unfold channels. rewrite !elem_of_cons, elem_of_nil.
  intros [E|[E|[E|[]]]]; inversion E; auto.
Qed.

Lemma subscribed_channels : on_connect 0 = channels.*1.
Proof. done. Qed.

Lemma on_message_insert utcnow msg d c s :
  well_formed json_loads msg d →
  (topic msg, c) ∈ channels →
  on_message' utcnow None msg s
  = (Ok (), append c (stamp utcnow d) s,
     [EvInsertOne c (VDict (stamp utcnow d)); EvPrint (Saved c)]).
Proof.
  intros E Hc. run_callback. rewrite E.
  destruct (routed_cases _ _ Hc) as [[-> ->]|[[-> ->]|[-> ->]]];
    repeat case_decide; done.
Qed.

Lemma on_message_write_error utcnow msg d c s e :
  well_formed json_loads msg d →
  (topic msg, c) ∈ channels →
  on_message' utcnow (Some e) msg s
  = (Ok (), s, [EvInsertOne c (VDict (stamp utcnow d)); EvPrint (Failed e)]).
Proof.
  intros E Hc. run_callback. rewrite E.
  destruct (routed_cases _ _ Hc) as [[-> ->]|[[-> ->]|[-> ->]]];
    repeat case_decide; done.
Qed.

Lemma on_message_elsewhere utcnow fault msg d s :
  well_formed json_loads msg d →
  (∀ c, (topic msg, c) ∉ channels) →
  on_message' utcnow fault msg s = (Ok (), s, []).
Proof.
  intros E Hc. run_callback. rewrite E.
  destruct (decide (topic msg = TOPIC_SENSORS)) as [Ht|_].
  { destruct (Hc SensorReadings). rewrite Ht. unfold channels. set_solver. }
  destruct (decide (topic msg = TOPIC_STATUS)) as [Ht|_].
  { destruct (Hc StatusLogs). rewrite Ht. unfold channels. set_solver. }
  destruct (decide (topic msg = TOPIC_ALERT)) as [Ht|_]; [|done].
  destruct (Hc Alerts). rewrite Ht. unfold channels. set_solver.
Qed.

Lemma coll_append_same c d s :
  coll c (append c d s) = coll c s ++ [with_id d s].
Proof. by destruct c. Qed.

Lemma coll_append_other c c' d s :
  c' ≠ c → coll c' (append c d s) = coll c' s.
Proof. by destruct c, c'. Qed.

Lemma filter_none {A} (P : A → Prop) `{∀ x, Decision (P x)} (l : list A) :
  (∀ x, x ∈ l → ¬ P x) → filter P l = [].
Proof.
  induction l as [|x l IH]; intros Hl; [done|].
  rewrite filter_cons_False by (apply Hl; left).
  apply IH. intros y Hy. apply Hl. by right.
Qed.

Lemma routed_or_not (t : string) :
  (∃ c, (t, c) ∈ channels) ∨ (∀ c, (t, c) ∉ channels).
Proof.
  destruct (decide (t = TOPIC_SENSORS)) as [->|H1].
  { left. exists SensorReadings. unfold channels. set_solver. }
  destruct (decide (t = TOPIC_STATUS)) as [->|H2].
  { left. exists StatusLogs. unfold channels. set_solver. }
  destruct (decide (t = TOPIC_ALERT)) as [->|H3].
  { left. exists Alerts. unfold channels. set_solver. }
  right. intros c Hc. apply routed_cases in Hc as [[? _]|[[? _]|[? _]]]; done.
Qed.

Lemma bindings_of_list (k : string) (v : value) (l : list (string * value)) :
  NoDup l.*1 → (k, v) ∈ l → filter (λ kv, kv.1 = k) l = [(k, v)].
Proof.
  induction l as [|[k' v'] l IH]; intros Hnd Hin.
  - by apply elem_of_nil in Hin.
  - apply NoDup_cons in Hnd as [Hk' Hnd].
    apply elem_of_cons in Hin as [E|Hin].
    + inversion E; subst k' v'. rewrite filter_cons_True by done.
      f_equal. apply filter_none.
      intros [k2 v2] H2 E2. simpl in E2. subst k2.
      apply Hk'. apply list_elem_of_fmap. by exists (k, v2).
    + assert (k' ≠ k) as Hne.
      { intros ->. apply Hk'. apply list_elem_of_fmap. by exists (k, v). }
      rewrite filter_cons_False by done. by apply IH.
Qed.

Lemma bindings_lookup k (d : document) v :
  d !! k = Some v → bindings k d = [(k, v)].
Proof.
  intros E. apply bindings_of_list.
  - apply NoDup_fst_map_to_list.
  - by apply elem_of_map_to_list.
Qed.

Lemma with_id_lookup (d : document) s k :
  k ≠ "_id" → body (with_id d s) !! k = d !! k.
Proof.
  intros Hk. unfold with_id. destruct (d !! "_id"); simpl; [|done].
  by rewrite lookup_delete_ne.
Qed.

Lemma on_message_returns utcnow fault msg s :
  result (on_message' utcnow fault msg s) = Ok ().
Proof.
  unfold on_message, try_except, insert_one, print, lift, setitem.
  unfold mbind, M_bind, mret, M_ret; cbn.
  destruct (json_loads (payload msg)) as [v|e]; [|done].
  destruct v; try done.
  destruct fault; repeat case_decide; done.
Qed.

Lemma loop_forever_cons d rest s :
  loop_forever json_loads (d :: rest) s
  = let '(_, s', tr) := on_message' (at_time d) (write_fault d) (message d) s in
    let '(r, s'', tr') := loop_forever json_loads rest s' in
    (r, s'', tr ++ tr').
Proof.
  cbn [loop_forever]. unfold mbind at 1, M_bind at 1.
  pose proof (on_message_returns (at_time d) (write_fault d) (message d) s) as R.
  destruct (on_message' _ _ _ s) as [[r s'] tr]. unfold result in R. simpl in R.
  by subst r.
Qed.

Lemma loop_forever_returns inbox s :
  result (loop_forever json_loads inbox s) = Ok ().
Proof.
  revert s. induction inbox as [|d rest IH]; intros s; [done|].
  rewrite loop_forever_cons.
  destruct (on_message' _ _ _ s) as [[r s'] tr].
  specialize (IH s'). destruct (loop_forever json_loads rest s') as [[r' s''] tr'].
  done.
Qed.

Lemma on_message_appends utcnow fault msg s c :
  ∃ new, coll c (final (on_message' utcnow fault msg s)) = coll c s ++ new
         ∧ ∀ r, r ∈ new → body r !! "timestamp" = Some (VDate utcnow).
Proof.
  assert (∃ new : list record, coll c s = coll c s ++ new
            ∧ ∀ r, r ∈ new → body r !! "timestamp" = Some (VDate utcnow)) as Same.
  { exists []. split; [by rewrite app_nil_r|]. intros r Hr. by apply elem_of_nil in Hr. }
  destruct (json_loads (payload msg)) as [v|e] eqn:E.
  2: { by rewrite (on_message_decode_error _ _ _ _ _ E). }
  assert ((∃ d, v = VDict d) ∨ (∀ d, v ≠ VDict d)) as [[d ->]|Hv]
    by (destruct v; eauto).
  2: { by rewrite (on_message_not_dict _ _ _ _ _ E Hv). }
  destruct (routed_or_not (topic msg)) as [[c0 Hc]|Hc].
  2: { by rewrite (on_message_elsewhere _ _ _ _ _ E Hc). }
  destruct fault as [e|].
  { by rewrite (on_message_write_error _ _ _ _ _ _ E Hc). }
  rewrite (on_message_insert _ _ _ _ _ E Hc). unfold final; simpl.
  destruct (decide (c = c0)) as [->|Hne].
  - rewrite coll_append_same. exists [with_id (stamp utcnow d) s]. split; [done|].
    intros r Hr. apply list_elem_of_singleton in Hr as ->.
    rewrite with_id_lookup by done. unfold stamp. apply lookup_insert_eq.
  - by rewrite coll_append_other.
Qed.

(** C5: a well-formed message on a subscribed channel makes the callback
    call [insert_one] exactly once, on the collection of that channel
    (room/sensors: sensor_readings, room/status: status_logs, room/alert:
    alerts); when the store takes the write, that collection is the old
    one with the new record added at the end, whatever it already held,
    and the two other collections are as before; when the store refuses
    the write, no record is added anywhere. *)
Theorem on_message_routes_one_insert utcnow fault msg d c s :
  well_formed json_loads msg d →
  (topic msg, c) ∈ channels →
  inserts (trace (on_message' utcnow fault msg s))
  = [EvInsertOne c (VDict (stamp utcnow d))]
  ∧ (fault = None →
     coll c (final (on_message' utcnow fault msg s))
     = coll c s ++ [with_id (stamp utcnow d) s]
     ∧ ∀ c', c' ≠ c → coll c' (final (on_message' utcnow fault msg s)) = coll c' s)
  ∧ (∀ e, fault = Some e → final (on_message' utcnow fault msg s) = s).
Proof.
  intros Hd Hc. destruct fault as [e|].
  - rewrite (on_message_write_error _ _ _ _ _ _ Hd Hc).
    split; [done|]. split; [discriminate|done].
  - rewrite (on_message_insert _ _ _ _ _ Hd Hc). split; [done|]. split; [|discriminate].
    intros _. unfold final; simpl. split; [apply coll_append_same|].
    intros c' Hne. by apply coll_append_other.
Qed.

(** C3: the record persisted for a well-formed message, whether or not
    its payload had a 'timestamp' of its own, binds 'timestamp' exactly
    once, to the receipt time read by the callback, and keeps every other
    payload field as sent; and whatever the message and the store's
    answer, a record the callback adds binds 'timestamp' exactly once, to
    that receipt time. *)
Theorem on_message_server_timestamp utcnow msg d c s :
  well_formed json_loads msg d →
  (topic msg, c) ∈ channels →
  (∃ r, coll c (final (on_message' utcnow None msg s)) = coll c s ++ [r]
        ∧ bindings "timestamp" (body r) = [("timestamp", VDate utcnow)]
        ∧ ∀ k, k ≠ "timestamp" → k ≠ "_id" → body r !! k = d !! k)
  ∧ (∀ fault msg' c',
       ∃ new, coll c' (final (on_message' utcnow fault msg' s)) = coll c' s ++ new
              ∧ ∀ r, r ∈ new → bindings "timestamp" (body r) = [("timestamp", VDate utcnow)]).
Proof.
  intros Hd Hc. split.
  - exists (with_id (stamp utcnow d) s).
    rewrite (on_message_insert _ _ _ _ _ Hd Hc). unfold final; simpl.
    split; [apply coll_append_same|]. split.
    + apply bindings_lookup. rewrite with_id_lookup by done.
      unfold stamp. apply lookup_insert_eq.
    + intros k Hk Hid. rewrite with_id_lookup by done.
      unfold stamp. by rewrite lookup_insert_ne.
  - intros fault msg' c'.
    destruct (on_message_appends utcnow fault msg' s c') as (new & Hnew & Hts).
    exists new. split; [done|]. intros r Hr. by apply bindings_lookup, Hts.
Qed.

(** C4: a message that does not decode leaves the three collections as
    they were and the callback returns; the loop goes on with the
    messages behind it exactly as if it had not come, so a well-formed
    one right after it is stored; and no exception of the decode or of
    the insert leaves the callback, whatever the message. *)
Theorem on_message_malformed_is_dropped utcnow fault bad s :
  malformed json_loads bad →
  final (on_message' utcnow fault bad s) = s
  ∧ result (on_message' utcnow fault bad s) = Ok ()
  ∧ inserts (trace (on_message' utcnow fault bad s)) = []
  ∧ (∀ rest,
       result (loop_forever json_loads
                 ({| at_time := utcnow; write_fault := fault; message := bad |} :: rest) s)
       = Ok ()
       ∧ final (loop_forever json_loads
                  ({| at_time := utcnow; write_fault := fault; message := bad |} :: rest) s)
         = final (loop_forever json_loads rest s))
  ∧ (∀ utcnow' good d c,
       well_formed json_loads good d →
       (topic good, c) ∈ channels →
       final (loop_forever json_loads
                [ {| at_time := utcnow; write_fault := fault; message := bad |};
                  {| at_time := utcnow'; write_fault := None; message := good |} ] s)
       = append c (stamp utcnow' d) s)
  ∧ (∀ utcnow' fault' msg s',
       result (on_message' utcnow' fault' msg s') = Ok ()).
Proof.
  intros [e He].
  pose proof (on_message_decode_error utcnow fault bad s e He) as Run.
  rewrite Run. split; [done|]. split; [done|]. split; [done|].
  split; [|split].
  - intros rest. split; [apply loop_forever_returns|].
    rewrite (loop_forever_cons _ rest s). simpl. rewrite Run.
    by destruct (loop_forever json_loads rest s) as [[r s'] tr].
  - intros utcnow' good d c Hd Hc.
    rewrite (loop_forever_cons _ _ s). cbn [at_time write_fault message].
    rewrite Run. rewrite (loop_forever_cons _ [] s). cbn [at_time write_fault message].
    by rewrite (on_message_insert _ _ _ _ _ Hd Hc).
  - intros. apply on_message_returns.
Qed.

Lemma on_message_keeps_stamped utcnow fault msg s :
  all_stamped s → all_stamped (final (on_message' utcnow fault msg s)).
Proof.
  intros Hs.
  destruct (json_loads (payload msg)) as [v|e] eqn:E.
  2: { by rewrite (on_message_decode_error _ _ _ _ _ E). }
  assert ((∃ d, v = VDict d) ∨ (∀ d, v ≠ VDict d)) as [[d ->]|Hv]
    by (destruct v; eauto).
  2: { by rewrite (on_message_not_dict _ _ _ _ _ E Hv). }
  destruct (routed_or_not (topic msg)) as [[c Hc]|Hc].
  2: { by rewrite (on_message_elsewhere _ _ _ _ _ E Hc). }
  destruct fault as [e|].
  { by rewrite (on_message_write_error _ _ _ _ _ _ E Hc). }
  rewrite (on_message_insert _ _ _ _ _ E Hc). unfold final; simpl.
  intros c' r Hr. destruct (decide (c' = c)) as [->|Hne].
  - rewrite coll_append_same in Hr. apply elem_of_app in Hr as [Hr|Hr].
    + by apply (Hs c).
    + apply list_elem_of_singleton in Hr as ->. exists utcnow.
      rewrite with_id_lookup by done. unfold stamp. apply lookup_insert_eq.
  - rewrite coll_append_other in Hr by done. by apply (Hs c').
Qed.

Lemma reachable_stamped s : reachable json_loads s → all_stamped s.
Proof.
  induction 1 as [|s utcnow fault msg _ IH].
  - intros c r Hr. destruct c; by apply elem_of_nil in Hr.
  - by apply on_message_keeps_stamped.
Qed.

End BridgeFacts.

(** ** Sorting by timestamp *)

Lemma key_leb_total a b : key_leb a b = true ∨ key_leb b a = true.
Proof.
  unfold key_leb. destruct a as [ra ta], b as [rb tb]; simpl.
  destruct (Nat.ltb_spec ra rb), (Nat.ltb_spec rb ra), (Nat.eqb_spec ra rb),
    (Nat.eqb_spec rb ra), (Z.leb_spec ta tb), (Z.leb_spec tb ta); simpl; auto; lia.
Qed.

Lemma key_leb_trans a b c : key_leb a b = true → key_leb b c = true → key_leb a c = true.
Proof.
  unfold key_leb. destruct a as [ra ta], b as [rb tb], c as [rc tc]; simpl.
  destruct (Nat.ltb_spec ra rb), (Nat.ltb_spec rb rc), (Nat.ltb_spec ra rc),
    (Nat.eqb_spec ra rb), (Nat.eqb_spec rb rc), (Nat.eqb_spec ra rc),
    (Z.leb_spec ta tb), (Z.leb_spec tb tc), (Z.leb_spec ta tc); simpl; auto; lia.
Qed.

#[global] Instance newer_first_total : Total newer_first.
Proof. intros d1 d2. unfold newer_first. destruct (key_leb_total (sort_key d1) (sort_key d2)); auto. Qed.

#[global] Instance newer_first_trans : Transitive newer_first.
Proof. intros d1 d2 d3 H12 H23. unfold newer_first in *. by eapply key_leb_trans. Qed.

Lemma sort_key_stamped (d : document) t :
  d !! "timestamp" = Some (VDate t) → sort_key d = (9%nat, t).
Proof. intros E. unfold sort_key. by rewrite E. Qed.

Lemma newer_first_stamped (d1 d2 : document) t1 t2 :
  d1 !! "timestamp" = Some (VDate t1) →
  d2 !! "timestamp" = Some (VDate t2) →
  newer_first d1 d2 ↔ t2 ≤ t1.
Proof.
  intros E1 E2. unfold newer_first.
  rewrite (sort_key_stamped _ _ E1), (sort_key_stamped _ _ E2).
  unfold key_leb; simpl. destruct (Z.leb_spec t2 t1); split; auto; try lia.
Qed.

Lemma sorted_newer_first (l : list document) :
  StronglySorted newer_first (merge_sort newer_first l).
Proof. apply StronglySorted_merge_sort; apply _. Qed.

Lemma sorted_elem_of (l : list document) d :
  d ∈ merge_sort newer_first l ↔ d ∈ l.
Proof. by rewrite merge_sort_Permutation. Qed.

(** ** Cursors *)

Lemma cursor_limit_zero {A} (l : list A) : cursor_limit 0 l = l.
Proof. done. Qed.

Lemma cursor_limit_length {A} limit (l : list A) :
  limit ≠ 0 → (length (cursor_limit limit l) ≤ Z.abs_nat limit)%nat.
Proof.
  intros Hl. unfold cursor_limit. case_decide; [done|].
  rewrite length_take. lia.
Qed.

Lemma cursor_limit_prefix {A} limit (l : list A) : cursor_limit limit l `prefix_of` l.
Proof. unfold cursor_limit. case_decide; [done|]. apply prefix_take. Qed.

Lemma prefix_strongly_sorted {A} (R : relation A) (l1 l2 : list A) :
  l1 `prefix_of` l2 → StronglySorted R l2 → StronglySorted R l1.
Proof.
  intros [k ->] Hs. revert Hs. induction l1 as [|x l1 IH]; simpl; intros Hs.
  - constructor.
  - apply StronglySorted_inv in Hs as [Hs Hx]. constructor; [by apply IH|].
    apply Forall_app in Hx. tauto.
Qed.

Lemma found_sorted c q limit s : StronglySorted newer_first (found c q limit s).
Proof.
  unfold found. eapply prefix_strongly_sorted; [apply cursor_limit_prefix|].
  apply sorted_newer_first.
Qed.

Lemma found_elem_of c q limit s d :
  d ∈ found c q limit s → matches q d = true ∧ ∃ r, r ∈ coll c s ∧ d = body r.
Proof.
  unfold found. intros Hd.
  pose proof (cursor_limit_prefix limit
    (merge_sort newer_first (filter (matches q) (body <$> coll c s)))) as Hp.
  apply (elem_of_prefix _ _ _ Hd) in Hp. clear Hd.
  apply sorted_elem_of, list_elem_of_filter in Hp as [Hm Hd].
  split; [by apply Is_true_true|].
  apply list_elem_of_fmap in Hd as (r & -> & Hr). eauto.
Qed.

Lemma found_zero_perm c q s :
  found c q 0 s ≡ₚ filter (matches q) (body <$> coll c s).
Proof. unfold found. rewrite cursor_limit_zero. apply merge_sort_Permutation. Qed.

(** ** Converting the timestamps of a listing *)

Lemma mapM_cons {A B} (f : A → outcome B) (d : A) (l : list A) :
  mapM f (d :: l)
  = match f d with
    | Ok r => match mapM f l with
              | Ok rs => Ok (r :: rs)
              | Raise e => Raise e
              end
    | Raise e => Raise e
    end.
Proof. cbn [mapM]. unfold mbind, outcome_bind. by destruct (f d). Qed.

Lemma mapM_Ok {A B} (f : A → outcome B) (l : list A) (rs : list B) :
  mapM f l = Ok rs ↔ Forall2 (λ d r, f d = Ok r) l rs.
Proof.
  revert rs. induction l as [|d l IH]; intros rs.
  - split.
    + intros E. inversion E. constructor.
    + intros E. by inversion E.
  - rewrite mapM_cons. split.
    + destruct (f d) as [r|e] eqn:Ed; [|done].
      destruct (mapM f l) as [rs'|e] eqn:El; [|done].
      intros E. inversion E; subst rs. constructor; [done|]. by apply IH.
    + intros E. inversion E as [|? r ? rs' Ed El]; subst.
      rewrite Ed. apply IH in El. by rewrite El.
Qed.

Lemma mapM_returns {A B} (f : A → outcome B) (l : list A) :
  (∀ d, d ∈ l → ∃ r, f d = Ok r) → ∃ rs, mapM f l = Ok rs.
Proof.
  induction l as [|d l IH]; intros Hl.
  - by exists [].
  - destruct (Hl d) as [r Hr]; [left|].
    destruct IH as [rs Hrs]; [intros d' Hd'; apply Hl; by right|].
    exists (r :: rs). apply mapM_Ok. constructor; [done|]. by apply mapM_Ok.
Qed.

Lemma timestamp_to_iso_Ok (d r : document) :
  timestamp_to_iso d = Ok r
  ↔ ∃ t, d !! "timestamp" = Some (VDate t) ∧ r = <["timestamp" := VIso t]> d.
Proof.
  unfold timestamp_to_iso, getitem, isoformat, mbind, outcome_bind, mret, outcome_ret.
  split.
  - destruct (d !! "timestamp") as [v|]; [|done].
    destruct v; try done. intros E. inversion E. eauto.
  - intros (t & -> & ->). done.
Qed.

Lemma timestamp_to_iso_stamped (d : document) :
  stamped d → ∃ r, timestamp_to_iso d = Ok r.
Proof. intros [t Ht]. eexists. apply timestamp_to_iso_Ok. eauto. Qed.

Lemma time_of_iso (d : document) t : time_of (<["timestamp" := VIso t]> d) = Some t.
Proof. unfold time_of. by rewrite lookup_insert_eq. Qed.

Lemma Forall2_strongly_sorted {A B} (R : relation A) (R' : relation B)
    (P : A → B → Prop) (l : list A) (l' : list B) :
  (∀ a a' b b', P a b → P a' b' → R a a' → R' b b') →
  Forall2 P l l' → StronglySorted R l → StronglySorted R' l'.
Proof.
  intros HR HP. induction HP as [|a b l l' Hab HP IH]; intros Hs.
  - constructor.
  - apply StronglySorted_inv in Hs as [Hs Ha]. constructor; [by apply IH|].
    apply Forall_forall. intros b' Hb'.
    apply (list_elem_of_lookup_1 l') in Hb' as [i Hi].
    destruct (Forall2_lookup_r _ _ _ _ _ HP Hi) as (a' & Ha' & Hab').
    eapply HR; [done..|].
    eapply Forall_forall in Ha; [done|]. by eapply list_elem_of_lookup_2.
Qed.

Lemma minus_hours_Ok utcnow hours since :
  minus_hours utcnow hours = Ok since → since = utcnow - hours * MS_PER_HOUR.
Proof. unfold minus_hours. case_bool_decide; [|done]. by intros [= <-]. Qed.

Lemma matches_since_date since (d : document) t :
  d !! "timestamp" = Some (VDate t) →
  matches (since_query since) d = bool_decide (since ≤ t).
Proof. intros E. unfold matches; simpl. rewrite E. simpl. apply andb_true_r. Qed.

(** A listing that answers is the conversion, record by record, of what
    the cursor yields. *)
Lemma listing_Ok c since limit s rs :
  mapM timestamp_to_iso (found c (since_query since) limit s) = Ok rs →
  length rs = length (found c (since_query since) limit s)
  ∧ (∀ r, r ∈ rs → ∃ t, r !! "timestamp" = Some (VIso t) ∧ since ≤ t)
  ∧ newest_first rs.
Proof.
  intros E. apply mapM_Ok in E. split; [|split].
  - symmetry. by eapply Forall2_length.
  - intros r Hr. apply list_elem_of_lookup_1 in Hr as [i Hi].
    destruct (Forall2_lookup_r _ _ _ _ _ E Hi) as (d & Hd & Hdr).
    apply timestamp_to_iso_Ok in Hdr as (t & Ht & ->).
    exists t. split; [apply lookup_insert_eq|].
    apply list_elem_of_lookup_2, found_elem_of in Hd as [Hm _].
    rewrite (matches_since_date _ _ _ Ht) in Hm. by apply bool_decide_eq_true in Hm.
  - eapply Forall2_strongly_sorted; [|exact E|apply found_sorted].
    intros a a' b b' Hab Hab' Haa'.
    apply timestamp_to_iso_Ok in Hab as (t & Ht & ->).
    apply timestamp_to_iso_Ok in Hab' as (t' & Ht' & ->).
    exists t, t'. rewrite !time_of_iso. split; [done|]. split; [done|].
    by apply (newer_first_stamped _ _ _ _ Ht Ht').
Qed.

Lemma listing_returns c q limit s :
  (∀ r, r ∈ coll c s → stamped (body r)) →
  ∃ rs, mapM timestamp_to_iso (found c q limit s) = Ok rs.
Proof.
  intros Hs. apply mapM_returns. intros d Hd.
  apply found_elem_of in Hd as (_ & r & Hr & ->).
  by apply timestamp_to_iso_stamped, Hs.
Qed.

Lemma get_sensors_result request utcnow s :
  result (get_sensors request utcnow s)
  = (since ← minus_hours utcnow (args_get (arg_hours request) 24);
     mapM timestamp_to_iso
       (found SensorReadings (since_query since) (args_get (arg_limit request) 100) s)).
Proof.
  unfold get_sensors, jsonify, find, lift, result, found.
  unfold mbind at 1 2 3, M_bind, mret, M_ret.
  destruct (minus_hours _ _) as [since|e]; [|done]. simpl.
  by destruct (mapM _ _).
Qed.

Lemma get_alerts_result request utcnow s :
  result (get_alerts request utcnow s)
  = (since ← minus_hours utcnow (args_get (arg_hours request) 24);
     mapM timestamp_to_iso
       (found Alerts (since_query since) (args_get (arg_limit request) 50) s)).
Proof.
  unfold get_alerts, jsonify, find, lift, result, found.
  unfold mbind at 1 2 3, M_bind, mret, M_ret.
  destruct (minus_hours _ _) as [since|e]; [|done]. simpl.
  by destruct (mapM _ _).
Qed.

(** ** Listing routes *)

Lemma listing_every_match c since s rs r t :
  mapM timestamp_to_iso (found c (since_query since) 0 s) = Ok rs →
  r ∈ coll c s →
  body r !! "timestamp" = Some (VDate t) →
  since ≤ t →
  <["timestamp" := VIso t]> (body r) ∈ rs.
Proof.
  intros E Hr Ht Hle. apply mapM_Ok in E.
  assert (body r ∈ found c (since_query since) 0 s) as Hin.
  { rewrite found_zero_perm. apply list_elem_of_filter. split.
    - apply Is_true_true. rewrite (matches_since_date _ _ _ Ht). by apply bool_decide_eq_true.
    - by apply list_elem_of_fmap_2. }
  apply list_elem_of_lookup_1 in Hin as [i Hi].
  destruct (Forall2_lookup_l _ _ _ _ _ E Hi) as (r' & Hr' & Hiso).
  apply timestamp_to_iso_Ok in Hiso as (t' & Ht' & ->).
  rewrite Ht in Ht'. injection Ht' as <-. by eapply list_elem_of_lookup_2.
Qed.

Lemma listing_zero_length c since s rs :
  mapM timestamp_to_iso (found c (since_query since) 0 s) = Ok rs →
  length rs = length (filter (matches (since_query since)) (body <$> coll c s)).
Proof.
  intros E. apply listing_Ok in E as [-> _]. by rewrite found_zero_perm.
Qed.

Lemma bind_Ok {A B} (o : outcome A) (f : A → outcome B) b :
  (o ≫= f) = Ok b → ∃ a, o = Ok a ∧ f a = Ok b.
Proof. destruct o as [a|e]; [|done]. intros E. by exists a. Qed.

(** C1: whenever GET /api/sensors?hours=H&limit=L answers, the answer has
    at most |L| records unless L is 0, every record carries a timestamp no
    earlier than now - H hours, and the records come newest first, two of
    the same instant next to each other; and it does answer when every
    sensor reading carries a datetime and now - H hours is a datetime. *)
Theorem get_sensors_window_limit_order s utcnow H L :
  ((∀ r, r ∈ sensor_readings s → stamped (body r)) →
   returns (minus_hours utcnow H) →
   returns (result (get_sensors {| arg_hours := Some H; arg_limit := Some L |} utcnow s)))
  ∧ ∀ rs,
      result (get_sensors {| arg_hours := Some H; arg_limit := Some L |} utcnow s) = Ok rs →
      (L ≠ 0 → Z.of_nat (length rs) ≤ Z.abs L)
      ∧ (∀ r, r ∈ rs →
           ∃ t, r !! "timestamp" = Some (VIso t) ∧ utcnow - H * MS_PER_HOUR ≤ t)
      ∧ newest_first rs.
Proof.
  rewrite get_sensors_result. simpl. split.
  - intros Hs [since ->]. simpl. by apply (listing_returns SensorReadings).
  - intros rs E. apply bind_Ok in E as (since & Hsince & E).
    apply minus_hours_Ok in Hsince as Heq. rewrite <- Heq.
    pose proof (listing_Ok _ _ _ _ _ E) as (Hlen & Hwin & Hsort).
    split; [|done]. intros HL. rewrite Hlen. unfold found.
    pose proof (cursor_limit_length L
      (merge_sort newer_first
         (filter (matches (since_query since)) (body <$> coll SensorReadings s))) HL).
    lia.
Qed.

Lemma get_sensors_window_limit_order_witness :
  result (get_sensors {| arg_hours := Some 1; arg_limit := Some 2 |} 4000 three_readings)
  = Ok [as_iso 3000 (reading 3000 21.5 41); as_iso 2000 (reading 2000 22.5 42)]
  ∧ (Z.of_nat 2 ≤ Z.abs 2)
  ∧ newest_first [as_iso 3000 (reading 3000 21.5 41); as_iso 2000 (reading 2000 22.5 42)].
Proof.
  assert (result (get_sensors {| arg_hours := Some 1; arg_limit := Some 2 |} 4000 three_readings)
          = Ok [as_iso 3000 (reading 3000 21.5 41); as_iso 2000 (reading 2000 22.5 42)]) as E
    by (vm_compute; reflexivity).
  destruct (proj2 (get_sensors_window_limit_order three_readings 4000 1 2) _ E)
    as (Hlen & _ & Hsort).
  split; [exact E|]. split; [apply Hlen; lia|exact Hsort].
Defined.

(** C1, as stated, fails: with limit=0 the two readings of one instant both
    come back, which is more than 0 records, and neither is strictly newer
    than the other. *)
Lemma get_sensors_limit_counterexample :
  result (get_sensors {| arg_hours := Some 1; arg_limit := Some 0 |} 2000 two_at_once)
  = Ok [as_iso 1000 (reading 1000 20.5 40); as_iso 1000 (reading 1000 21.5 41)]
  ∧ ¬ (Z.of_nat (length [as_iso 1000 (reading 1000 20.5 40);
                         as_iso 1000 (reading 1000 21.5 41)]) ≤ 0)
  ∧ ¬ strictly_newest_first [as_iso 1000 (reading 1000 20.5 40);
                             as_iso 1000 (reading 1000 21.5 41)].
Proof.
  split; [vm_compute; reflexivity|]. split; [simpl; lia|].
  intros Hs. apply StronglySorted_inv in Hs as [_ Hs].
  apply Forall_cons in Hs as [(ta & tb & Ha & Hb & Hlt) _].
  unfold as_iso in Ha, Hb. rewrite time_of_iso in Ha, Hb.
  injection Ha as <-. injection Hb as <-. lia.
Qed.

(** C9: with limit=0 GET /api/sensors and GET /api/alerts cut nothing off:
    an answer has as many records as pass the filter, among them every
    record stamped at or after now - hours; both routes answer when the
    records carry datetimes; and there is a store on which the answer to
    limit=0 has more than 0 records. *)
Theorem limit_zero_is_no_limit s utcnow H since :
  minus_hours utcnow H = Ok since →
  (∀ rs,
     result (get_sensors {| arg_hours := Some H; arg_limit := Some 0 |} utcnow s) = Ok rs →
     length rs = length (filter (matches (since_query since)) (body <$> sensor_readings s))
     ∧ ∀ r t, r ∈ sensor_readings s → body r !! "timestamp" = Some (VDate t) →
              since ≤ t → <["timestamp" := VIso t]> (body r) ∈ rs)
  ∧ (∀ rs,
       result (get_alerts {| arg_hours := Some H; arg_limit := Some 0 |} utcnow s) = Ok rs →
       length rs = length (filter (matches (since_query since)) (body <$> alerts s))
       ∧ ∀ r t, r ∈ alerts s → body r !! "timestamp" = Some (VDate t) →
                since ≤ t → <["timestamp" := VIso t]> (body r) ∈ rs)
  ∧ ((∀ r, r ∈ sensor_readings s → stamped (body r)) →
     returns (result (get_sensors {| arg_hours := Some H; arg_limit := Some 0 |} utcnow s)))
  ∧ ((∀ r, r ∈ alerts s → stamped (body r)) →
     returns (result (get_alerts {| arg_hours := Some H; arg_limit := Some 0 |} utcnow s)))
  ∧ (∃ rs, result (get_sensors {| arg_hours := Some 1; arg_limit := Some 0 |} 2000 two_at_once)
           = Ok rs ∧ 0 < Z.of_nat (length rs))
  ∧ (∃ rs, result (get_alerts {| arg_hours := Some 1; arg_limit := Some 0 |} 2000 two_at_once)
           = Ok rs ∧ 0 < Z.of_nat (length rs)).
Proof.
  intros Hsince. rewrite get_sensors_result, get_alerts_result. simpl. rewrite Hsince. simpl.
  split; [|split; [|split; [|split; [|split]]]].
  - intros rs E. split; [by apply (listing_zero_length SensorReadings)|].
    intros r t Hr Ht Hle. by apply (listing_every_match SensorReadings since s rs r t).
  - intros rs E. split; [by apply (listing_zero_length Alerts)|].
    intros r t Hr Ht Hle. by apply (listing_every_match Alerts since s rs r t).
  - intros Hs. by apply (listing_returns SensorReadings).
  - intros Hs. by apply (listing_returns Alerts).
  - eexists. split; [vm_compute; reflexivity|]. simpl. lia.
  - eexists. split; [vm_compute; reflexivity|]. simpl. lia.
Qed.

Lemma limit_zero_is_no_limit_witness :
  ∃ rs, result (get_sensors {| arg_hours := Some 1; arg_limit := Some 0 |} 2000 two_at_once)
        = Ok rs
        ∧ length rs = 2%nat
        ∧ as_iso 1000 (reading 1000 21.5 41) ∈ rs.
Proof.
  assert (minus_hours 2000 1 = Ok (-3598000)) as Hsince by (vm_compute; reflexivity).
  destruct (limit_zero_is_no_limit two_at_once 2000 1 _ Hsince)
    as (Hsensors & _ & Hret & _).
  destruct Hret as [rs Hrs].
  { intros r Hr. unfold two_at_once in Hr. simpl in Hr.
    apply elem_of_cons in Hr as [->|Hr]; [by exists 1000|].
    apply list_elem_of_singleton in Hr as ->. by exists 1000. }
  exists rs. split; [exact Hrs|].
  destruct (Hsensors rs Hrs) as [Hlen Hall]. split.
  - rewrite Hlen. vm_compute. reflexivity.
  - apply (Hall (stored 1 (reading 1000 21.5 41)) 1000).
    + unfold two_at_once. simpl. right. left.
    + reflexivity.
    + lia.
Defined.

(** ** Latest-record routes *)

Lemma get_latest_sensor_result request s :
  result (get_latest_sensor request s)
  = match found_one SensorReadings s with
    | Some r => if bool_decide (size r ≠ 0%nat) then timestamp_to_iso r else Ok ∅
    | None => Ok ∅
    end.
Proof.
  unfold get_latest_sensor, jsonify, find_one, found_one, result, lift.
  unfold mbind, M_bind, mret, M_ret. simpl.
  destruct (head _) as [r|]; [|done]. case_bool_decide; [|done].
  by destruct (timestamp_to_iso r).
Qed.

Lemma get_status_result request s :
  result (get_status request s)
  = match found_one StatusLogs s with
    | Some r => if bool_decide (size r ≠ 0%nat) then timestamp_to_iso r else Ok ∅
    | None => Ok ∅
    end.
Proof.
  unfold get_status, jsonify, find_one, found_one, result, lift.
  unfold mbind, M_bind, mret, M_ret. simpl.
  destruct (head _) as [r|]; [|done]. case_bool_decide; [|done].
  by destruct (timestamp_to_iso r).
Qed.


Lemma found_one_latest c s :
  (∀ r, r ∈ coll c s → stamped (body r)) →
  coll c s ≠ [] →
  ∃ r t, r ∈ coll c s
         ∧ body r !! "timestamp" = Some (VDate t)
         ∧ (∀ r' t', r' ∈ coll c s → body r' !! "timestamp" = Some (VDate t') → t' ≤ t)
         ∧ found_one c s = Some (body r).
Proof.
  intros Hs Hne. unfold found_one.
  pose proof (sorted_newer_first (body <$> coll c s)) as Hsorted.
  pose proof (merge_sort_Permutation newer_first (body <$> coll c s)) as Hperm.
  destruct (merge_sort newer_first (body <$> coll c s)) as [|d rest] eqn:E.
  { apply Permutation_nil_l in Hperm. symmetry in Hperm.
    apply fmap_nil_inv in Hperm. done. }
  assert (d ∈ body <$> coll c s) as Hd by (rewrite <- Hperm; left).
  apply list_elem_of_fmap in Hd as (r & -> & Hr).
  destruct (Hs r Hr) as [t Ht]. exists r, t.
  split; [done|]. split; [done|]. split; [|done].
  intros r' t' Hr' Ht'.
  assert (body r' ∈ body r :: rest) as Hin.
  { rewrite Hperm. by apply list_elem_of_fmap_2. }
  apply StronglySorted_inv in Hsorted as [_ Hall].
  apply elem_of_cons in Hin as [Heq|Hin].
  - rewrite Heq in Ht'. rewrite Ht in Ht'. injection Ht' as <-. lia.
  - eapply Forall_forall in Hall; [|exact Hin].
    by apply (newer_first_stamped _ _ _ _ Ht Ht').
Qed.

Lemma stamped_nonempty (d : document) : stamped d → size d ≠ 0%nat.
Proof.
  intros [t Ht] Hsize. apply map_size_empty_inv in Hsize. subst d.
  by rewrite lookup_empty in Ht.
Qed.

Lemma respond_stamped (d : document) t :
  d !! "timestamp" = Some (VDate t) →
  (if bool_decide (size d ≠ 0%nat) then timestamp_to_iso d else Ok ∅)
  = Ok (<["timestamp" := VIso t]> d).
Proof.
  intros Ht. rewrite bool_decide_eq_true_2 by (apply stamped_nonempty; by exists t).
  apply timestamp_to_iso_Ok. eauto.
Qed.



(** ** Statistics *)

Lemma get_stats_run request utcnow s since :
  minus_hours utcnow (args_get (arg_hours request) 24) = Ok since →
  get_stats request utcnow s
  = (agg_result ← Ok (group (window SensorReadings (since_query since) s));
     avg_temp ← rounded agg_result row_avg_temp;
     max_temp ← rounded agg_result row_max_temp;
     avg_humidity ← rounded agg_result row_avg_humidity;
     Ok {| total_readings := length (window SensorReadings (since_query since) s);
           total_alerts := length (window Alerts (since_query since) s);
           burglar_alerts := length (window Alerts (since_type_query since "burglar") s);
           fire_alerts := length (window Alerts (since_type_query since "fire") s);
           avg_temp := avg_temp;
           max_temp := max_temp;
           avg_humidity := avg_humidity |},
     s, stats_calls since).
Proof.
  intros Hsince.
  unfold get_stats, jsonify, count_documents, aggregate, lift, window, stats_calls.
  unfold mbind, M_bind, mret, M_ret, outcome_bind. rewrite Hsince. simpl.
  destruct (rounded _ row_avg_temp); [|done]. simpl.
  destruct (rounded _ row_max_temp); [|done]. simpl.
  by destruct (rounded _ row_avg_humidity).
Qed.

Lemma get_stats_overflow request utcnow s e :
  minus_hours utcnow (args_get (arg_hours request) 24) = Raise e →
  get_stats request utcnow s = (Raise e, s, []).
Proof.
  intros Hsince. unfold get_stats, lift. unfold mbind at 1, M_bind. by rewrite Hsince.
Qed.

Lemma window_none c since s :
  (∀ r, r ∈ coll c s → ∃ t, body r !! "timestamp" = Some (VDate t) ∧ t < since) →
  window c (since_query since) s = [].
Proof.
  intros Hs. unfold window. apply filter_none.
  intros d Hd Hm. apply list_elem_of_fmap in Hd as (r & -> & Hr).
  destruct (Hs r Hr) as (t & Ht & Hlt).
  apply Is_true_true in Hm. rewrite (matches_since_date _ _ _ Ht) in Hm.
  apply bool_decide_eq_true in Hm. lia.
Qed.

Lemma window_no_match c q s :
  (∀ r, r ∈ coll c s → matches q (body r) = false) → window c q s = [].
Proof.
  intros Hs. unfold window. apply filter_none.
  intros d Hd Hm. apply list_elem_of_fmap in Hd as (r & -> & Hr).
  apply Is_true_true in Hm. by rewrite (Hs r Hr) in Hm.
Qed.

Lemma window_empty_no_match c q s :
  window c q s = [] → ∀ r, r ∈ coll c s → matches q (body r) = false.
Proof.
  unfold window. intros Hw r Hr. destruct (matches q (body r)) eqn:E; [|done].
  assert (body r ∈ filter (matches q) (body <$> coll c s)) as Hin.
  { apply list_elem_of_filter. split; [by apply Is_true_true|].
    apply list_elem_of_fmap. eauto. }
  rewrite Hw in Hin. by apply elem_of_nil in Hin.
Qed.

(** C2: when now - hours is a datetime and no sensor reading passes the
    filter timestamp >= now - hours, GET /api/stats answers with
    total_readings = 0 and the integer 0 for avg_temp, max_temp and
    avg_humidity. A reading does not pass when it has no timestamp, when
    its timestamp is neither a datetime nor an array, and when it is a
    datetime before now - hours; and the condition is the weakest there
    is: an answer with total_readings = 0 means that no reading passes. *)
Theorem get_stats_no_reading_since s request utcnow since :
  minus_hours utcnow (args_get (arg_hours request) 24) = Ok since →
  (∀ r, r ∈ sensor_readings s → matches (since_query since) (body r) = false) →
  (∃ st, result (get_stats request utcnow s) = Ok st
         ∧ total_readings st = 0%nat
         ∧ avg_temp st = VInt 0
         ∧ max_temp st = VInt 0
         ∧ avg_humidity st = VInt 0)
  ∧ (∀ d : document,
       d !! "timestamp" = None
       ∨ (∃ v, d !! "timestamp" = Some v ∧ (∀ t, v ≠ VDate t) ∧ (∀ vs, v ≠ VList vs))
       ∨ (∃ t, d !! "timestamp" = Some (VDate t) ∧ t < since) →
       matches (since_query since) d = false)
  ∧ (∀ s' st, result (get_stats request utcnow s') = Ok st → total_readings st = 0%nat →
              ∀ r, r ∈ sensor_readings s' → matches (since_query since) (body r) = false).
Proof.
  intros Hsince Hs. split; [|split].
  - rewrite (get_stats_run _ _ _ _ Hsince).
    rewrite (window_no_match SensorReadings (since_query since) s Hs).
    eexists. split; [reflexivity|]. done.
  - intros d [Hd|[(v & Hd & Hdate & Hlist)|(t & Hd & Hlt)]]; unfold matches; simpl;
      rewrite Hd; simpl.
    + done.
    + destruct v as [| | | | |vs| |t|]; simpl; try done.
      * by destruct (Hlist vs).
      * by destruct (Hdate t).
    + rewrite andb_true_r. apply bool_decide_eq_false. lia.
  - intros s' st E Hzero. rewrite (get_stats_run _ _ _ _ Hsince) in E.
    unfold result in E; cbn [fst] in E.
    apply (window_empty_no_match SensorReadings).
    destruct (window SensorReadings (since_query since) s') as [|d docs]; [done|].
    cbn [mbind outcome_bind] in E.
    destruct (rounded _ row_avg_temp) as [a|]; [|done]. cbn [mbind outcome_bind] in E.
    destruct (rounded _ row_max_temp) as [m|]; [|done]. cbn [mbind outcome_bind] in E.
    destruct (rounded _ row_avg_humidity) as [h|]; [|done]. cbn [mbind outcome_bind] in E.
    injection E as <-. discriminate Hzero.
Qed.

Lemma get_stats_no_reading_since_witness :
  minus_hours 7200000 1 = Ok 3600000
  ∧ (∀ r, r ∈ sensor_readings never_since →
          matches (since_query 3600000) (body r) = false)
  ∧ ∃ st, result (get_stats {| arg_hours := Some 1; arg_limit := None |} 7200000 never_since)
          = Ok st
          ∧ total_readings st = 0%nat
          ∧ avg_temp st = VInt 0
          ∧ max_temp st = VInt 0
          ∧ avg_humidity st = VInt 0.
Proof.
  assert (minus_hours 7200000 1 = Ok 3600000) as Hsince by (vm_compute; reflexivity).
  assert (∀ r, r ∈ sensor_readings never_since →
               matches (since_query 3600000) (body r) = false) as Hs.
  { intros r Hr. unfold never_since in Hr. cbn [sensor_readings] in Hr.
    repeat (apply elem_of_cons in Hr as [->|Hr]; [vm_compute; reflexivity|]).
    by apply elem_of_nil in Hr. }
  split; [exact Hsince|]. split; [exact Hs|].
  exact (proj1 (get_stats_no_reading_since never_since
                  {| arg_hours := Some 1; arg_limit := None |} 7200000 3600000 Hsince Hs)).
Defined.

(** With no reading stamped after the moment of the query, the window of
    the glossary and the filter of the route select the same readings. *)
Lemma get_stats_empty_window_no_future s request utcnow since :
  minus_hours utcnow (args_get (arg_hours request) 24) = Ok since →
  (∀ r, r ∈ sensor_readings s → ∃ t, body r !! "timestamp" = Some (VDate t) ∧ t ≤ utcnow) →
  (∀ r, r ∈ sensor_readings s →
        ¬ inside_window utcnow (args_get (arg_hours request) 24) (body r)) →
  ∃ st, result (get_stats request utcnow s) = Ok st
        ∧ total_readings st = 0%nat
        ∧ avg_temp st = VInt 0
        ∧ max_temp st = VInt 0
        ∧ avg_humidity st = VInt 0.
Proof.
  intros Hsince Hpast Hout. rewrite (get_stats_run _ _ _ _ Hsince).
  rewrite (window_none SensorReadings since s).
  { eexists. split; [reflexivity|]. done. }
  intros r Hr. destruct (Hpast r Hr) as (t & Ht & Hle). exists t. split; [done|].
  apply minus_hours_Ok in Hsince. destruct (decide (t < since)) as [|Hge]; [done|].
  destruct (Hout r Hr). exists t. unfold time_of. rewrite Ht. split; [done|]. lia.
Qed.

(** C2, as stated, fails: a reading stamped after the moment of the query
    lies outside [now - hours, now] and is counted all the same; and when
    now - hours is no datetime the route raises instead of answering. *)
Lemma get_stats_window_counterexample :
  (∀ r, r ∈ sensor_readings one_from_the_future → ¬ inside_window 2000 1 (body r))
  ∧ result (get_stats {| arg_hours := Some 1; arg_limit := None |} 2000 one_from_the_future)
    = Ok {| total_readings := 1; total_alerts := 0; burglar_alerts := 0; fire_alerts := 0;
            avg_temp := VFloat 20.5; max_temp := VFloat 20.5; avg_humidity := VFloat 40 |}
  ∧ result (get_stats {| arg_hours := Some 100000000000; arg_limit := None |} 2000 empty_store)
    = Raise OverflowError.
Proof.
  split; [|split; vm_compute; reflexivity].
  intros r Hr. unfold one_from_the_future in Hr. simpl in Hr.
  apply list_elem_of_singleton in Hr as ->.
  intros (t & Ht & Hlo & Hhi). vm_compute in Ht. injection Ht as <-. lia.
Qed.

Lemma avg_of_one (o : option value) x :
  o ≫= number_of = Some x →
  avg_result (avg_add (0%float, 0%nat) o) = VFloat ((0 + x) / float_of_Z 1)%float.
Proof. intros E. unfold avg_add. by rewrite E. Qed.

(** C6: when the window holds one sensor reading, with temp = 21.35 and a
    numeric humidity, GET /api/stats answers with avg_temp = 21.4 and
    max_temp = 21.4. *)
Theorem get_stats_rounds_21_35 s request utcnow since r h :
  minus_hours utcnow (args_get (arg_hours request) 24) = Ok since →
  window SensorReadings (since_query since) s = [r] →
  r !! "temp" = Some (VFloat 21.35) →
  r !! "humidity" ≫= number_of = Some h →
  ∃ st, result (get_stats request utcnow s) = Ok st
        ∧ total_readings st = 1%nat
        ∧ avg_temp st = VFloat 21.4
        ∧ max_temp st = VFloat 21.4.
Proof.
  intros Hsince Hwin Htemp Hhum. rewrite (get_stats_run _ _ _ _ Hsince), Hwin.
  unfold group, group_step, group_init, rounded; cbn [foldl fst snd mbind outcome_bind].
  cbn [row_avg_temp row_max_temp row_avg_humidity].
  rewrite (avg_of_one (r !! "temp") 21.35) by (by rewrite Htemp).
  rewrite (avg_of_one _ h Hhum). rewrite Htemp.
  eexists. split; [reflexivity|]. split; [done|]. split.
  - cbn [avg_temp]. vm_compute. reflexivity.
  - cbn [max_temp max_add]. vm_compute. reflexivity.
Qed.

(** C6, as stated, fails: a reading that has temp = 21.35 and no humidity
    is stored as it comes, and over a window holding it alone GET
    /api/stats raises, the average humidity being null, and yields no
    avg_temp. *)
Lemma get_stats_temp_only_counterexample :
  sensor_readings after_temp_only
  = [stored 0 {[ "timestamp" := VDate 1000; "temp" := VFloat 21.35 ]}]
  ∧ window SensorReadings (since_query (-3598000)) after_temp_only
    = [ {[ "timestamp" := VDate 1000; "temp" := VFloat 21.35 ]} ]
  ∧ result (get_stats {| arg_hours := Some 1; arg_limit := None |} 2000 after_temp_only)
    = Raise TypeError.
Proof. repeat split; vm_compute; reflexivity. Qed.

Lemma get_stats_rounds_21_35_witness :
  sensor_readings after_one_reading
  = [stored 0 {[ "timestamp" := VDate 1000; "temp" := VFloat 21.35; "humidity" := VFloat 40 ]}]
  ∧ minus_hours 2000 (args_get (Some 1) 24) = Ok (-3598000)
  ∧ ∃ st, result (get_stats {| arg_hours := Some 1; arg_limit := None |} 2000 after_one_reading)
          = Ok st
          ∧ total_readings st = 1%nat
          ∧ avg_temp st = VFloat 21.4
          ∧ max_temp st = VFloat 21.4.
Proof.
  split; [vm_compute; reflexivity|]. split; [vm_compute; reflexivity|].
  apply (get_stats_rounds_21_35 after_one_reading _ 2000 (-3598000)
           {[ "timestamp" := VDate 1000; "temp" := VFloat 21.35; "humidity" := VFloat 40 ]}
           40%float).
  - vm_compute. reflexivity.
  - vm_compute. reflexivity.
  - vm_compute. reflexivity.
  - vm_compute. reflexivity.
Defined.

(** ** The statistics against their reference *)

Lemma matches_since_type (d : document) since ty t ty' :
  d !! "timestamp" = Some (VDate t) →
  d !! "type" = Some (VStr ty') →
  matches (since_type_query since ty) d = bool_decide (since ≤ t) && bool_decide (ty' = ty).
Proof. intros Et Ety. unfold matches; simpl. by rewrite Et, Ety. Qed.

Lemma filter_cons_bool {A} (f : A → bool) (x : A) (l : list A) :
  filter f (x :: l) = if f x then x :: filter f l else filter f l.
Proof. rewrite filter_cons. by destruct (f x). Qed.





(** One pass with the three accumulators side by side comes to the same as
    three passes with one accumulator each. *)
Lemma group_step_fusion (docs : list document) (g : group_state) :
  foldl group_step g docs
  = (foldl avg_add g.1.1 ((λ d : document, d !! "temp") <$> docs),
     foldl max_add g.1.2 ((λ d : document, d !! "temp") <$> docs),
     foldl avg_add g.2 ((λ d : document, d !! "humidity") <$> docs)).
Proof.
  revert g. induction docs as [|d docs IH]; intros [[a m] b]; [done|].
  cbn [foldl fmap list_fmap]. by rewrite IH.
Qed.


(** *** [$avg] adds up the numbers of a field and counts them *)




(** *** [$max] takes the greatest number when the field holds numbers *)

Lemma max_add_nothing (a : value) (o : option value) :
  o = None ∨ o = Some VNull → max_add a o = a.
Proof. by intros [->| ->]. Qed.







Lemma bson_leb_numbers (v a : value) :
  is_Some (Reference.a_number (Some v)) →
  is_Some (Reference.a_number (Some a)) →
  bson_leb v a = Reference.leb v a.
Proof.
  intros [? Hv] [? Ha]. destruct v; try discriminate Hv; destruct a; try discriminate Ha;
    unfold bson_leb, Reference.leb; simpl; try done.
  by rewrite !Z.mul_1_r.
Qed.

Lemma max_fold_numbers (os : list (option value)) (a : value) :
  Forall number_or_nothing os →
  is_Some (Reference.a_number (Some a)) →
  foldl max_add a os = Reference.maximum a (omap Reference.a_number os).
Proof.
  unfold Reference.maximum. revert a.
  induction os as [|o os IH]; intros a Hos Ha; [done|].
  apply Forall_cons in Hos as [Ho Hos]. cbn [foldl omap list_omap].
  destruct Ho as [->|[->|Ho]]; [by apply IH|by apply IH|].
  destruct o as [v|]; [|by destruct Ho].
  assert (max_add a (Some v) = if Reference.leb v a then a else v) as ->.
  { rewrite <- (bson_leb_numbers v a Ho Ha).
    destruct Ho as [? Hv], Ha as [? Ha].
    destruct v; try discriminate Hv; destruct a; try discriminate Ha; done. }
  assert (Reference.a_number (Some v) = Some v) as ->.
  { destruct Ho as [? Hv]. destruct v; try discriminate Hv; done. }
  cbn [foldl]. apply IH; [done|]. by destruct (Reference.leb v a).
Qed.

Lemma max_fold_null (os : list (option value)) :
  Forall number_or_nothing os →
  foldl max_add VNull os
  = match omap Reference.a_number os with
    | [] => VNull
    | v :: vs => Reference.maximum v vs
    end.
Proof.
  induction os as [|o os IH]; intros Hos; [done|].
  apply Forall_cons in Hos as [Ho Hos]. cbn [foldl omap list_omap].
  destruct Ho as [->|[->|Ho]]; [by apply IH|by apply IH|].
  destruct o as [v|]; [|by destruct Ho].
  assert (Reference.a_number (Some v) = Some v) as Ev.
  { destruct Ho as [? Hv]. destruct v; try discriminate Hv; done. }
  rewrite Ev.
  assert (max_add VNull (Some v) = v) as ->.
  { destruct Ho as [? Hv]. destruct v; try discriminate Hv; done. }
  apply max_fold_numbers; [done|]. by rewrite Ev.
Qed.

Lemma omap_field (f : string) (docs : list document) :
  omap Reference.a_number ((λ d : document, d !! f) <$> docs)
  = omap (λ d : document, Reference.a_number (d !! f)) docs.
Proof.
  induction docs as [|d docs IH]; [done|].
  cbn [fmap list_fmap omap list_omap]. by rewrite IH.
Qed.



(** The exact order of the numbers is total and transitive. *)
Lemma scaled_le (m1 e1 m2 e2 e0 : Z) :
  e0 ≤ e1 → e0 ≤ e2 →
  m1 * 2 ^ (e1 - Z.min e1 e2) ≤ m2 * 2 ^ (e2 - Z.min e1 e2)
  ↔ m1 * 2 ^ (e1 - e0) ≤ m2 * 2 ^ (e2 - e0).
Proof.
  intros H1 H2.
  assert (0 ≤ Z.min e1 e2 - e0) as Hk by lia.
  assert (0 < 2 ^ (Z.min e1 e2 - e0)) as Hpos by (apply Z.pow_pos_nonneg; lia).
  assert (2 ^ (e1 - e0) = 2 ^ (e1 - Z.min e1 e2) * 2 ^ (Z.min e1 e2 - e0)) as ->
    by (rewrite <- Z.pow_add_r by lia; f_equal; lia).
  assert (2 ^ (e2 - e0) = 2 ^ (e2 - Z.min e1 e2) * 2 ^ (Z.min e1 e2 - e0)) as ->
    by (rewrite <- Z.pow_add_r by lia; f_equal; lia).
  rewrite !Z.mul_assoc.
  apply (Z.mul_le_mono_pos_r _ _ (2 ^ (Z.min e1 e2 - e0))). done.
Qed.

Lemma xnum_leb_total (a b : xnum) : xnum_leb a b = true ∨ xnum_leb b a = true.
Proof.
  destruct a as [| |m1 e1|], b as [| |m2 e2|]; simpl; auto.
  rewrite (Z.min_comm e2 e1).
  destruct (Z.leb_spec (m1 * 2 ^ (e1 - Z.min e1 e2)) (m2 * 2 ^ (e2 - Z.min e1 e2))); auto.
  right. apply Z.leb_le. lia.
Qed.

Lemma xnum_leb_trans (a b c : xnum) :
  xnum_leb a b = true → xnum_leb b c = true → xnum_leb a c = true.
Proof.
  destruct a as [| |m1 e1|], b as [| |m2 e2|], c as [| |m3 e3|]; simpl; try done.
  rewrite !Z.leb_le. intros H12 H23.
  set (e0 := Z.min e1 (Z.min e2 e3)).
  apply (scaled_le m1 e1 m2 e2 e0) in H12; [|lia..].
  apply (scaled_le m2 e2 m3 e3 e0) in H23; [|lia..].
  apply (scaled_le m1 e1 m3 e3 e0); [lia..|]. lia.
Qed.

Lemma maximum_is_greatest (x : value) (xs : list value) :
  Reference.maximum x xs ∈ x :: xs
  ∧ ∀ y, y ∈ x :: xs → Reference.leb y (Reference.maximum x xs) = true.
Proof.
  unfold Reference.maximum. revert x. induction xs as [|y ys IH]; intros x.
  - simpl. split; [left|]. intros z Hz. apply list_elem_of_singleton in Hz as ->.
    unfold Reference.leb. by destruct (xnum_leb_total (Reference.exact x) (Reference.exact x)).
  - cbn [foldl].
    destruct (IH (if Reference.leb y x then x else y)) as [Hin Hall].
    assert (Reference.leb x (if Reference.leb y x then x else y) = true
            ∧ Reference.leb y (if Reference.leb y x then x else y) = true)
      as [Hx Hy].
    { unfold Reference.leb.
      destruct (xnum_leb (Reference.exact y) (Reference.exact x)) eqn:E.
      - split; [|done].
        by destruct (xnum_leb_total (Reference.exact x) (Reference.exact x)).
      - split.
        + destruct (xnum_leb_total (Reference.exact x) (Reference.exact y)); congruence.
        + by destruct (xnum_leb_total (Reference.exact y) (Reference.exact y)). }
    split.
    + apply elem_of_cons in Hin as [->|Hin].
      * destruct (Reference.leb y x); [left|right; left].
      * right. by right.
    + intros z Hz.
      assert (Reference.leb (if Reference.leb y x then x else y)
                (foldl (λ m y0, if Reference.leb y0 m then m else y0)
                   (if Reference.leb y x then x else y) ys) = true) as Hm
        by (apply Hall; left).
      apply elem_of_cons in Hz as [->|Hz]; [|apply elem_of_cons in Hz as [->|Hz]].
      * unfold Reference.leb in *. by eapply xnum_leb_trans.
      * unfold Reference.leb in *. by eapply xnum_leb_trans.
      * apply Hall. by right.
Qed.

(** Every route leaves the store as it found it. *)
Lemma routes_are_read_only request utcnow s :
  final (get_sensors request utcnow s) = s
  ∧ final (get_latest_sensor request s) = s
  ∧ final (get_alerts request utcnow s) = s
  ∧ final (get_status request s) = s
  ∧ final (get_stats request utcnow s) = s.
Proof.
  split; [|split; [|split; [|split]]].
  - unfold get_sensors, jsonify, find, lift, final.
    unfold mbind at 1 2 3, M_bind, mret, M_ret.
    destruct (minus_hours _ _); [|done]. simpl. by destruct (mapM _ _).
  - unfold get_latest_sensor, jsonify, find_one, lift, final.
    unfold mbind, M_bind, mret, M_ret. simpl.
    destruct (head _) as [r|]; [|done]. case_bool_decide; [|done].
    by destruct (timestamp_to_iso r).
  - unfold get_alerts, jsonify, find, lift, final.
    unfold mbind at 1 2 3, M_bind, mret, M_ret.
    destruct (minus_hours _ _); [|done]. simpl. by destruct (mapM _ _).
  - unfold get_status, jsonify, find_one, lift, final.
    unfold mbind, M_bind, mret, M_ret. simpl.
    destruct (head _) as [r|]; [|done]. case_bool_decide; [|done].
    by destruct (timestamp_to_iso r).
  - destruct (minus_hours utcnow (args_get (arg_hours request) 24)) as [since|e] eqn:E.
    + by rewrite (get_stats_run _ _ _ _ E).
    + by rewrite (get_stats_overflow _ _ _ _ E).
Qed.

(** ** The listener and the routes together *)

Lemma found_one_elem_of c s d :
  found_one c s = Some d → ∃ r, r ∈ coll c s ∧ d = body r.
Proof.
  unfold found_one. intros E. apply head_Some in E as [rest E].
  assert (d ∈ merge_sort newer_first (body <$> coll c s)) as Hd by (rewrite E; left).
  apply sorted_elem_of, list_elem_of_fmap in Hd as (r & -> & Hr). eauto.
Qed.

Lemma latest_returns c s :
  (∀ r, r ∈ coll c s → stamped (body r)) →
  returns (match found_one c s with
           | Some r => if bool_decide (size r ≠ 0%nat) then timestamp_to_iso r else Ok ∅
           | None => Ok ∅
           end).
Proof.
  intros Hs. destruct (found_one c s) as [d|] eqn:E; [|by exists ∅].
  apply found_one_elem_of in E as (r & Hr & ->).
  destruct (Hs r Hr) as [t Ht]. rewrite (respond_stamped _ _ Ht). by eexists.
Qed.

(** C10: every record the callback adds to a collection binds 'timestamp'
    to the datetime read at receipt; so in a store that only the listener
    has written to, every record converts to ISO text, and the four routes
    that convert timestamps answer (the two listings whenever now - hours
    is a datetime). *)
Theorem listener_timestamps_convert json_loads s :
  reachable json_loads s →
  (∀ s0 utcnow fault msg c,
     ∃ new, coll c (final (on_message json_loads utcnow fault msg s0)) = coll c s0 ++ new
            ∧ ∀ r, r ∈ new → body r !! "timestamp" = Some (VDate utcnow))
  ∧ (∀ c r, r ∈ coll c s → ∃ t, body r !! "timestamp" = Some (VDate t))
  ∧ (∀ c r, r ∈ coll c s → returns (timestamp_to_iso (body r)))
  ∧ (∀ request utcnow,
       returns (minus_hours utcnow (args_get (arg_hours request) 24)) →
       returns (result (get_sensors request utcnow s))
       ∧ returns (result (get_alerts request utcnow s)))
  ∧ (∀ request,
       returns (result (get_latest_sensor request s))
       ∧ returns (result (get_status request s))).
Proof.
  intros Hreach. pose proof (reachable_stamped json_loads s Hreach) as Hs.
  split; [intros; apply on_message_appends|]. split; [exact Hs|]. split; [|split].
  - intros c r Hr. by apply timestamp_to_iso_stamped, (Hs c).
  - intros request utcnow [since Hsince].
    rewrite get_sensors_result, get_alerts_result, Hsince. simpl. split.
    + apply (listing_returns SensorReadings). apply (Hs SensorReadings).
    + apply (listing_returns Alerts). apply (Hs Alerts).
  - intros request. rewrite get_latest_sensor_result, get_status_result. split.
    + apply latest_returns. apply (Hs SensorReadings).
    + apply latest_returns. apply (Hs StatusLogs).
Qed.

(** ** Instances on the sample data *)

Ltac each_record H :=
  repeat (apply elem_of_cons in H as [->|H]); [..|by apply elem_of_nil in H].

Lemma on_message_routes_one_insert_witness :
  well_formed sample_loads reading_message {[ "temp" := VFloat 21.35; "humidity" := VFloat 40 ]}
  ∧ (topic reading_message, SensorReadings) ∈ channels
  ∧ inserts (trace (on_message sample_loads 1000 None reading_message after_one_reading))
    = [EvInsertOne SensorReadings
         (VDict (stamp 1000 {[ "temp" := VFloat 21.35; "humidity" := VFloat 40 ]}))]
  ∧ ((None : option exn) = None →
     coll SensorReadings
       (final (on_message sample_loads 1000 None reading_message after_one_reading))
     = coll SensorReadings after_one_reading
       ++ [with_id (stamp 1000 {[ "temp" := VFloat 21.35; "humidity" := VFloat 40 ]})
             after_one_reading]
     ∧ ∀ c', c' ≠ SensorReadings →
         coll c' (final (on_message sample_loads 1000 None reading_message after_one_reading))
         = coll c' after_one_reading).
Proof.
  assert (well_formed sample_loads reading_message
            {[ "temp" := VFloat 21.35; "humidity" := VFloat 40 ]}) as Hd
    by (vm_compute; reflexivity).
  assert ((topic reading_message, SensorReadings) ∈ channels) as Hc by left.
  split; [exact Hd|]. split; [exact Hc|].
  destruct (on_message_routes_one_insert sample_loads 1000 None reading_message _ _
              after_one_reading Hd Hc) as (Hcall & Hstored & _).
  split; [exact Hcall|exact Hstored].
Defined.

(** C5, as stated, fails: a well-formed message on a subscribed channel
    whose payload brings an [_id] that a stored record already has is
    refused by the store; the callback has made its one call, catches the
    error, and no new record is inserted. *)
Lemma on_message_refused_write_counterexample :
  well_formed more_loads with_id_message
    {[ "_id" := VInt 7; "temp" := VFloat 21.35; "humidity" := VFloat 40 ]}
  ∧ (topic with_id_message, SensorReadings) ∈ channels
  ∧ (∃ r, r ∈ sensor_readings after_with_id ∧ doc_id r = Given (VInt 7))
  ∧ inserts (trace (on_message more_loads 2000 (Some PyMongoError) with_id_message
                      after_with_id))
    = [EvInsertOne SensorReadings
         (VDict (stamp 2000 {[ "_id" := VInt 7; "temp" := VFloat 21.35;
                               "humidity" := VFloat 40 ]}))]
  ∧ final (on_message more_loads 2000 (Some PyMongoError) with_id_message after_with_id)
    = after_with_id
  ∧ length (sensor_readings
              (final (on_message more_loads 2000 (Some PyMongoError) with_id_message
                        after_with_id))) = 1%nat.
Proof.
  split; [vm_compute; reflexivity|]. split; [left|]. split.
  { eexists. split; [left|]. reflexivity. }
  split; [vm_compute; reflexivity|]. split; vm_compute; reflexivity.
Qed.

Lemma on_message_server_timestamp_witness :
  well_formed sample_loads status_message {[ "door" := VStr "open"; "timestamp" := VStr "noon" ]}
  ∧ (topic status_message, StatusLogs) ∈ channels
  ∧ ∃ r, coll StatusLogs (final (on_message sample_loads 2000 None status_message empty_store))
         = coll StatusLogs empty_store ++ [r]
         ∧ bindings "timestamp" (body r) = [("timestamp", VDate 2000)]
         ∧ ∀ k, k ≠ "timestamp" → k ≠ "_id" →
                body r !! k
                = ({[ "door" := VStr "open"; "timestamp" := VStr "noon" ]} : document) !! k.
Proof.
  assert (well_formed sample_loads status_message
            {[ "door" := VStr "open"; "timestamp" := VStr "noon" ]}) as Hd
    by (vm_compute; reflexivity).
  assert ((topic status_message, StatusLogs) ∈ channels) as Hc by (right; left).
  split; [exact Hd|]. split; [exact Hc|].
  exact (proj1 (on_message_server_timestamp sample_loads 2000 status_message _ _ empty_store
                  Hd Hc)).
Defined.

Lemma on_message_malformed_is_dropped_witness :
  malformed sample_loads truncated_message
  ∧ final (on_message sample_loads 1000 None truncated_message after_one_reading)
    = after_one_reading
  ∧ final (loop_forever sample_loads
             [ {| at_time := 1000; write_fault := None; message := truncated_message |};
               {| at_time := 2000; write_fault := None; message := status_message |} ]
             after_one_reading)
    = append StatusLogs (stamp 2000 {[ "door" := VStr "open"; "timestamp" := VStr "noon" ]})
        after_one_reading.
Proof.
  assert (malformed sample_loads truncated_message) as Hbad
    by (exists JSONDecodeError; vm_compute; reflexivity).
  destruct (on_message_malformed_is_dropped sample_loads 1000 None truncated_message
              after_one_reading Hbad) as (Hsame & _ & _ & _ & Hnext & _).
  split; [exact Hbad|]. split; [exact Hsame|].
  apply Hnext; [vm_compute; reflexivity|right; left].
Defined.


Lemma listener_timestamps_convert_witness :
  reachable sample_loads after_one_reading
  ∧ returns (result (get_sensors {| arg_hours := Some 1; arg_limit := None |} 2000
                       after_one_reading))
  ∧ returns (result (get_latest_sensor {| arg_hours := None; arg_limit := None |}
                       after_one_reading)).
Proof.
  assert (reachable sample_loads after_one_reading) as Hreach
    by (apply reach_message, reach_empty).
  destruct (listener_timestamps_convert sample_loads after_one_reading Hreach)
    as (_ & _ & _ & Hlist & Hlatest).
  split; [exact Hreach|]. split.
  - apply (Hlist {| arg_hours := Some 1; arg_limit := None |} 2000).
    eexists. vm_compute. reflexivity.
  - apply (Hlatest {| arg_hours := None; arg_limit := None |}).
Defined.


(** * Further properties of the module *)

(** ** The callbacks *)

Section ListenerExtras.

Variable json_loads : list Byte.byte → outcome value.

Lemma subscribed_routed (t : string) :
  t ∈ on_connect 0 ↔ ∃ c, (t, c) ∈ channels.
Proof.
  rewrite subscribed_channels. rewrite list_elem_of_fmap. split.
  - intros ([t' c] & -> & H). by exists c.
  - intros [c H]. by exists (t, c).
Qed.

Lemma with_id_body (d : document) s : body (with_id d s) = delete "_id" d.
Proof.
  unfold with_id. destruct (d !! "_id") eqn:E; simpl; [done|].
  symmetry. by apply delete_id.
Qed.

Lemma records_append c d s : records (append c d s) = S (records s).
Proof. unfold records. destruct c; simpl; rewrite length_app; simpl; lia. Qed.

(** X1: the topics [on_connect] subscribes to are exactly those
    [on_message] stores: a well-formed message on one of them adds one
    record to the collection of its channel, a well-formed message on any
    other topic leaves no trace at all, not even a log line; and a refused
    connection subscribes to nothing. *)
Theorem on_connect_topics_are_stored utcnow fault msg d s :
  well_formed json_loads msg d →
  (topic msg ∈ on_connect 0 →
   ∃ c, (topic msg, c) ∈ channels
        ∧ final (on_message json_loads utcnow None msg s) = append c (stamp utcnow d) s
        ∧ records (final (on_message json_loads utcnow None msg s)) = S (records s))
  ∧ (topic msg ∉ on_connect 0 →
     on_message json_loads utcnow fault msg s = (Ok (), s, []))
  ∧ (∀ rc, rc ≠ 0 → on_connect rc = []).
Proof.
  intros Hd. split; [|split].
  - intros Hsub. apply subscribed_routed in Hsub as [c Hc]. exists c.
    rewrite (on_message_insert _ _ _ _ _ _ Hd Hc). unfold final; simpl.
    split; [done|]. split; [done|]. apply records_append.
  - intros Hsub. apply (on_message_elsewhere _ _ _ _ _ _ Hd).
    intros c Hc. apply Hsub, subscribed_routed. eauto.
  - intros rc Hrc. unfold on_connect. by case_decide.
Qed.

(** X2: a payload that decodes to something that is not an object (a list,
    a number, a string, null) is dropped: the callback attempts no insert,
    leaves the store as it is, logs the TypeError and returns. *)
Theorem on_message_drops_non_object utcnow fault msg v s :
  json_loads (payload msg) = Ok v →
  (∀ d, v ≠ VDict d) →
  final (on_message json_loads utcnow fault msg s) = s
  ∧ result (on_message json_loads utcnow fault msg s) = Ok ()
  ∧ inserts (trace (on_message json_loads utcnow fault msg s)) = []
  ∧ prints (trace (on_message json_loads utcnow fault msg s)) = [Failed TypeError].
Proof.
  intros Hv Hnd. by rewrite (on_message_not_dict _ _ _ _ _ _ Hv Hnd).
Qed.

(** X3: when the driver raises on the write, the callback has called
    [insert_one] once and does not call it again, logs that error and no
    success line, leaves the store as it is and returns, so that the loop
    handles the deliveries behind it from the same store. *)
Theorem on_message_write_error_is_logged utcnow msg d c e s :
  well_formed json_loads msg d →
  (topic msg, c) ∈ channels →
  final (on_message json_loads utcnow (Some e) msg s) = s
  ∧ result (on_message json_loads utcnow (Some e) msg s) = Ok ()
  ∧ length (inserts (trace (on_message json_loads utcnow (Some e) msg s))) = 1%nat
  ∧ prints (trace (on_message json_loads utcnow (Some e) msg s)) = [Failed e]
  ∧ ∀ rest,
      final (loop_forever json_loads
               ({| at_time := utcnow; write_fault := Some e; message := msg |} :: rest) s)
      = final (loop_forever json_loads rest s).
Proof.
  intros Hd Hc. pose proof (on_message_write_error _ utcnow msg d c s e Hd Hc) as Run.
  rewrite Run. repeat (split; [done|]).
  intros rest. rewrite (loop_forever_cons _ _ rest s). cbn [at_time write_fault message].
  rewrite Run. by destruct (loop_forever json_loads rest s) as [[r s'] tr].
Qed.

(** What one delivery does to a collection: nothing, or one record more,
    stamped with the time of the delivery. *)
Lemma on_message_step utcnow fault msg s c :
  (coll c (final (on_message json_loads utcnow fault msg s)) = coll c s)
  ∨ (∃ r, coll c (final (on_message json_loads utcnow fault msg s)) = coll c s ++ [r]
          ∧ body r !! "timestamp" = Some (VDate utcnow)).
Proof.
  destruct (on_message_appends json_loads utcnow fault msg s c) as (new & Hnew & Hts).
  destruct (json_loads (payload msg)) as [v|e] eqn:E.
  2: { left. by rewrite (on_message_decode_error _ _ _ _ _ _ E). }
  assert ((∃ d, v = VDict d) ∨ (∀ d, v ≠ VDict d)) as [[d ->]|Hv]
    by (destruct v; eauto).
  2: { left. by rewrite (on_message_not_dict _ _ _ _ _ _ E Hv). }
  destruct (routed_or_not (topic msg)) as [[c0 Hc]|Hc].
  2: { left. by rewrite (on_message_elsewhere _ _ _ _ _ _ E Hc). }
  destruct fault as [e|].
  { left. by rewrite (on_message_write_error _ _ _ _ _ _ _ E Hc). }
  rewrite (on_message_insert _ _ _ _ _ _ E Hc). unfold final; simpl.
  destruct (decide (c = c0)) as [->|Hne].
  - right. exists (with_id (stamp utcnow d) s). rewrite coll_append_same. split; [done|].
    rewrite with_id_lookup by done. unfold stamp. apply lookup_insert_eq.
  - left. by rewrite coll_append_other.
Qed.

Lemma loop_forever_final d rest s :
  final (loop_forever json_loads (d :: rest) s)
  = final (loop_forever json_loads rest
             (final (on_message json_loads (at_time d) (write_fault d) (message d) s))).
Proof.
  rewrite (loop_forever_cons _ d rest s).
  destruct (on_message json_loads _ _ _ s) as [[r s'] tr]. unfold final; simpl.
  by destruct (loop_forever json_loads rest s') as [[r' s''] tr'].
Qed.

(** X4: the listener only ever appends. Whatever arrives, each collection
    after the loop is the collection before it followed by new records, and
    the timestamps of the new records are receipt times of deliveries, in
    the order of arrival: no record is changed, removed or moved. *)
Theorem loop_forever_appends_in_order inbox s c :
  ∃ new, coll c (final (loop_forever json_loads inbox s)) = coll c s ++ new
         ∧ (λ r, body r !! "timestamp") <$> new
           `sublist_of` (λ d, Some (VDate (at_time d))) <$> inbox.
Proof.
  revert s. induction inbox as [|d rest IH]; intros s.
  - exists []. split; [by rewrite app_nil_r|]. constructor.
  - rewrite loop_forever_final.
    destruct (IH (final (on_message json_loads (at_time d) (write_fault d) (message d) s)))
      as (new & Hnew & Hsub).
    rewrite Hnew. cbn [fmap list_fmap].
    destruct (on_message_step (at_time d) (write_fault d) (message d) s c)
      as [->|(r & -> & Hr)].
    + exists new. split; [done|]. by apply sublist_cons.
    + exists (r :: new). split; [by rewrite <- app_assoc|].
      cbn [fmap list_fmap]. rewrite Hr. by apply sublist_skip.
Qed.

Lemma storable_routed d :
  storable json_loads d = true
  ↔ ∃ doc c, well_formed json_loads (message d) doc
             ∧ (topic (message d), c) ∈ channels
             ∧ write_fault d = None.
Proof.
  unfold storable, well_formed. split.
  - destruct (json_loads _) as [v|e]; [|done]. destruct v; try done.
    destruct (write_fault d); [done|]. intros H. apply bool_decide_eq_true in H.
    apply subscribed_routed in H as [c Hc]. eauto.
  - intros (doc & c & -> & Hc & ->). apply bool_decide_eq_true, subscribed_routed. eauto.
Qed.

Lemma on_message_records utcnow fault msg s :
  records (final (on_message json_loads utcnow fault msg s))
  = (records s
     + (if storable json_loads {| at_time := utcnow; write_fault := fault; message := msg |}
        then 1 else 0))%nat.
Proof.
  destruct (storable json_loads _) eqn:St.
  - apply storable_routed in St as (doc & c & Hd & Hc & Hf). simpl in Hd, Hc, Hf. subst fault.
    rewrite (on_message_insert _ _ _ _ _ _ Hd Hc). unfold final; simpl.
    rewrite records_append. lia.
  - rewrite Nat.add_0_r. f_equal.
    destruct (json_loads (payload msg)) as [v|e] eqn:E.
    2: { by rewrite (on_message_decode_error _ _ _ _ _ _ E). }
    assert ((∃ d, v = VDict d) ∨ (∀ d, v ≠ VDict d)) as [[d ->]|Hv]
      by (destruct v; eauto).
    2: { by rewrite (on_message_not_dict _ _ _ _ _ _ E Hv). }
    destruct (routed_or_not (topic msg)) as [[c Hc]|Hc].
    2: { by rewrite (on_message_elsewhere _ _ _ _ _ _ E Hc). }
    destruct fault as [e|].
    { by rewrite (on_message_write_error _ _ _ _ _ _ _ E Hc). }
    assert (storable json_loads {| at_time := utcnow; write_fault := None; message := msg |}
            = true) as St'.
    { apply storable_routed. exists d, c. done. }
    congruence.
Qed.

(** X5: the loop stores one record for each delivery whose payload decodes
    to an object, whose topic is subscribed and whose write the driver
    takes, and none for any other: the three collections grow by exactly
    the number of such deliveries. *)
Theorem loop_forever_stores_each_once inbox s :
  records (final (loop_forever json_loads inbox s))
  = (records s + length (filter (storable json_loads) inbox))%nat.
Proof.
  revert s. induction inbox as [|d rest IH]; intros s.
  - simpl. unfold final; simpl. lia.
  - rewrite loop_forever_final, IH, on_message_records.
    rewrite filter_cons_bool. destruct d as [t f m]; simpl.
    destruct (storable json_loads _); simpl; lia.
Qed.
Lemma found_one_after_append c s r t :
  (∀ r', r' ∈ coll c s → ∃ t', body r' !! "timestamp" = Some (VDate t') ∧ t' < t) →
  body r !! "timestamp" = Some (VDate t) →
  ∀ s', coll c s' = coll c s ++ [r] → found_one c s' = Some (body r).
Proof.
  intros Hold Hr s' Hs'.
  destruct (found_one_latest c s') as (r0 & t0 & Hr0 & Ht0 & Hmax & ->).
  - intros r' Hr'. rewrite Hs' in Hr'. apply elem_of_app in Hr' as [Hr'|Hr'].
    + destruct (Hold r' Hr') as (t' & Ht' & _). by exists t'.
    + apply list_elem_of_singleton in Hr' as ->. by exists t.
  - rewrite Hs'. by destruct (coll c s).
  - rewrite Hs' in Hr0. apply elem_of_app in Hr0 as [Hr0|Hr0].
    + destruct (Hold r0 Hr0) as (t' & Ht' & Hlt). rewrite Ht0 in Ht'. injection Ht' as <-.
      assert (t ≤ t0); [|lia]. apply (Hmax r); [|done].
      rewrite Hs'. apply elem_of_app. right. by left.
    + by apply list_elem_of_singleton in Hr0 as ->.
Qed.

Lemma stored_body_timestamp utcnow (d : document) :
  stored_body utcnow d !! "timestamp" = Some (VDate utcnow).
Proof.
  unfold stored_body, stamp. rewrite lookup_delete_ne by done. apply lookup_insert_eq.
Qed.

Lemma latest_of_appended c utcnow d s :
  (∀ r, r ∈ coll c s → ∃ t, body r !! "timestamp" = Some (VDate t) ∧ t < utcnow) →
  match found_one c (append c (stamp utcnow d) s) with
  | Some r => if bool_decide (size r ≠ 0%nat) then timestamp_to_iso r else Ok ∅
  | None => Ok ∅
  end
  = Ok (<["timestamp" := VIso utcnow]> (stored_body utcnow d)).
Proof.
  intros Hold.
  rewrite (found_one_after_append c s (with_id (stamp utcnow d) s) utcnow Hold).
  - rewrite with_id_body. apply respond_stamped, stored_body_timestamp.
  - rewrite with_id_body. apply stored_body_timestamp.
  - apply coll_append_same.
Qed.

(** X6: a reading the listener has just stored is what GET
    /api/sensors/latest answers with, and a status just stored what GET
    /api/status answers with, when every record the collection held was
    stamped earlier: the answer carries the receipt time as ISO text, no
    [_id], and every other field of the payload as it was published. *)
Theorem latest_is_the_message_just_stored utcnow msg d s request :
  well_formed json_loads msg d →
  (topic msg = TOPIC_SENSORS →
   (∀ r, r ∈ sensor_readings s → ∃ t, body r !! "timestamp" = Some (VDate t) ∧ t < utcnow) →
   result (get_latest_sensor request (final (on_message json_loads utcnow None msg s)))
   = Ok (<["timestamp" := VIso utcnow]> (stored_body utcnow d)))
  ∧ (topic msg = TOPIC_STATUS →
     (∀ r, r ∈ status_logs s → ∃ t, body r !! "timestamp" = Some (VDate t) ∧ t < utcnow) →
     result (get_status request (final (on_message json_loads utcnow None msg s)))
     = Ok (<["timestamp" := VIso utcnow]> (stored_body utcnow d)))
  ∧ (<["timestamp" := VIso utcnow]> (stored_body utcnow d) : document) !! "_id" = None
  ∧ ∀ k, k ≠ "timestamp" → k ≠ "_id" →
         (<["timestamp" := VIso utcnow]> (stored_body utcnow d) : document) !! k = d !! k.
Proof.
  intros Hd. split; [|split; [|split]].
  - intros Ht Hold.
    assert ((topic msg, SensorReadings) ∈ channels) as Hc by (rewrite Ht; left).
    rewrite (on_message_insert _ _ _ _ _ _ Hd Hc). unfold final; simpl.
    rewrite get_latest_sensor_result. by apply (latest_of_appended SensorReadings).
  - intros Ht Hold.
    assert ((topic msg, StatusLogs) ∈ channels) as Hc by (rewrite Ht; right; left).
    rewrite (on_message_insert _ _ _ _ _ _ Hd Hc). unfold final; simpl.
    rewrite get_status_result. by apply (latest_of_appended StatusLogs).
  - rewrite lookup_insert_ne by done. apply lookup_delete_eq.
  - intros k Hk Hid. rewrite lookup_insert_ne by done. unfold stored_body, stamp.
    rewrite lookup_delete_ne by done. by rewrite lookup_insert_ne.
Qed.
End ListenerExtras.

(** ** Routes and collections *)

Lemma get_stats_result request utcnow s :
  result (get_stats request utcnow s)
  = (since ← minus_hours utcnow (args_get (arg_hours request) 24);
     agg_result ← Ok (group (window SensorReadings (since_query since) s));
     avg_temp ← rounded agg_result row_avg_temp;
     max_temp ← rounded agg_result row_max_temp;
     avg_humidity ← rounded agg_result row_avg_humidity;
     Ok {| total_readings := length (window SensorReadings (since_query since) s);
           total_alerts := length (window Alerts (since_query since) s);
           burglar_alerts := length (window Alerts (since_type_query since "burglar") s);
           fire_alerts := length (window Alerts (since_type_query since "fire") s);
           avg_temp := avg_temp;
           max_temp := max_temp;
           avg_humidity := avg_humidity |}).
Proof.
  destruct (minus_hours utcnow (args_get (arg_hours request) 24)) as [since|e] eqn:E.
  - by rewrite (get_stats_run _ _ _ _ E).
  - by rewrite (get_stats_overflow _ _ _ _ E).
Qed.

(** X7: each route reads its own collections and nothing else of the
    store: two stores with the same sensor readings get the same answers
    from GET /api/sensors and GET /api/sensors/latest, with the same alerts
    the same answer from GET /api/alerts, with the same status records the
    same answer from GET /api/status, and with the same readings and alerts
    the same statistics. *)
Theorem routes_read_their_collections s s' request utcnow :
  (sensor_readings s = sensor_readings s' →
   result (get_sensors request utcnow s) = result (get_sensors request utcnow s')
   ∧ result (get_latest_sensor request s) = result (get_latest_sensor request s'))
  ∧ (alerts s = alerts s' →
     result (get_alerts request utcnow s) = result (get_alerts request utcnow s'))
  ∧ (status_logs s = status_logs s' →
     result (get_status request s) = result (get_status request s'))
  ∧ (sensor_readings s = sensor_readings s' → alerts s = alerts s' →
     result (get_stats request utcnow s) = result (get_stats request utcnow s')).
Proof.
  rewrite !get_sensors_result, !get_alerts_result, !get_latest_sensor_result,
    !get_status_result, !get_stats_result.
  unfold found, found_one, window; cbn [coll].
  split; [|split; [|split]].
  - by intros ->.
  - by intros ->.
  - by intros ->.
  - by intros -> ->.
Qed.

(** ** Ingest, then query *)

Lemma stored_body_lookup utcnow (d : document) k :
  k ≠ "timestamp" → k ≠ "_id" → stored_body utcnow d !! k = d !! k.
Proof.
  intros Hk Hid. unfold stored_body, stamp.
  rewrite lookup_delete_ne by done. by rewrite lookup_insert_ne.
Qed.

Lemma window_append_same c q d s :
  window c q (append c d s)
  = window c q s ++ (if matches q (delete "_id" d) then [delete "_id" d] else []).
Proof.
  unfold window. rewrite coll_append_same, fmap_app, filter_app. f_equal.
  cbn [fmap list_fmap]. rewrite filter_cons_bool, with_id_body. by destruct (matches _ _).
Qed.

Lemma window_append_other c c' q d s :
  c' ≠ c → window c' q (append c d s) = window c' q s.
Proof. intros Hne. unfold window. by rewrite coll_append_other. Qed.

Section IngestThenQuery.

Variable json_loads : list Byte.byte → outcome value.

(** X8: an alert the listener stores at or after now - hours raises
    total_alerts by one, raises burglar_alerts by one exactly when its
    type is the string "burglar" and fire_alerts exactly when it is
    "fire", and changes nothing else of GET /api/stats: the reading count
    and the three aggregates stay, and a request that raised before raises
    the same after. *)
Theorem get_stats_after_alert utcnow msg d ty s request now since :
  well_formed json_loads msg d →
  topic msg = TOPIC_ALERT →
  d !! "type" = Some (VStr ty) →
  minus_hours now (args_get (arg_hours request) 24) = Ok since →
  since ≤ utcnow →
  (∀ e, result (get_stats request now s) = Raise e →
        result (get_stats request now (final (on_message json_loads utcnow None msg s)))
        = Raise e)
  ∧ (∀ st, result (get_stats request now s) = Ok st →
           result (get_stats request now (final (on_message json_loads utcnow None msg s)))
           = Ok {| total_readings := total_readings st;
                   total_alerts := S (total_alerts st);
                   burglar_alerts :=
                     if decide (ty = "burglar") then S (burglar_alerts st)
                     else burglar_alerts st;
                   fire_alerts :=
                     if decide (ty = "fire") then S (fire_alerts st) else fire_alerts st;
                   avg_temp := avg_temp st;
                   max_temp := max_temp st;
                   avg_humidity := avg_humidity st |}).
Proof.
  intros Hd Ht Hty Hsince Hle.
  assert ((topic msg, Alerts) ∈ channels) as Hc by (rewrite Ht; right; right; left).
  rewrite (on_message_insert _ _ _ _ _ _ Hd Hc). unfold final; cbn [fst snd].
  rewrite !get_stats_result, Hsince. cbn [mbind outcome_bind].
  rewrite (window_append_other Alerts SensorReadings) by done.
  rewrite !window_append_same.
  assert (delete "_id" (stamp utcnow d) !! "timestamp" = Some (VDate utcnow)) as Hts
    by apply stored_body_timestamp.
  assert (delete "_id" (stamp utcnow d) !! "type" = Some (VStr ty)) as Hty'
    by (rewrite <- Hty; by apply stored_body_lookup).
  rewrite (matches_since_date _ _ _ Hts), !(matches_since_type _ _ _ _ _ Hts Hty').
  rewrite (bool_decide_eq_true_2 (since ≤ utcnow)) by done. cbn [andb].
  rewrite !length_app.
  destruct (rounded _ row_avg_temp) as [a|e]; cbn [mbind outcome_bind];
    [|split; [done|discriminate]].
  destruct (rounded _ row_max_temp) as [m|e]; cbn [mbind outcome_bind];
    [|split; [done|discriminate]].
  destruct (rounded _ row_avg_humidity) as [h|e]; cbn [mbind outcome_bind];
    [|split; [done|discriminate]].
  split; [discriminate|]. intros st [= <-]. cbn [total_readings total_alerts burglar_alerts
    fire_alerts avg_temp max_temp avg_humidity]. f_equal.
  repeat case_bool_decide; repeat case_decide; try done;
    f_equal; rewrite ?Nat.add_0_r; try done; apply Nat.add_1_r.
Qed.

(** X9: a reading the listener stores at or after now - hours is in every
    answer of GET /api/sensors with limit=0 for that window, with its
    receipt time as ISO text, and GET /api/stats counts it: total_readings
    is one more than before and the three alert counts are as before. *)
Theorem reading_stored_is_listed_and_counted utcnow msg d s now H since :
  well_formed json_loads msg d →
  topic msg = TOPIC_SENSORS →
  minus_hours now H = Ok since →
  since ≤ utcnow →
  (∀ rs, result (get_sensors {| arg_hours := Some H; arg_limit := Some 0 |} now
                   (final (on_message json_loads utcnow None msg s))) = Ok rs →
         <["timestamp" := VIso utcnow]> (stored_body utcnow d) ∈ rs)
  ∧ (∀ st st',
       result (get_stats {| arg_hours := Some H; arg_limit := None |} now s) = Ok st →
       result (get_stats {| arg_hours := Some H; arg_limit := None |} now
                 (final (on_message json_loads utcnow None msg s))) = Ok st' →
       total_readings st' = S (total_readings st)
       ∧ total_alerts st' = total_alerts st
       ∧ burglar_alerts st' = burglar_alerts st
       ∧ fire_alerts st' = fire_alerts st).
Proof.
  intros Hd Ht Hsince Hle.
  assert ((topic msg, SensorReadings) ∈ channels) as Hc by (rewrite Ht; left).
  rewrite (on_message_insert _ _ _ _ _ _ Hd Hc). unfold final; cbn [fst snd]. split.
  - intros rs. rewrite get_sensors_result. cbn [arg_hours arg_limit args_get].
    rewrite Hsince. cbn [mbind outcome_bind]. intros E.
    unfold stored_body. rewrite <- (with_id_body (stamp utcnow d) s).
    apply (listing_every_match SensorReadings since _ rs _ utcnow E).
    + rewrite coll_append_same. apply elem_of_app. right. by left.
    + rewrite with_id_body. apply stored_body_timestamp.
    + done.
  - intros st st'. rewrite !get_stats_result. cbn [arg_hours args_get].
    rewrite Hsince. cbn [mbind outcome_bind].
    rewrite !(window_append_other SensorReadings Alerts) by done.
    rewrite (window_append_same SensorReadings).
    rewrite (matches_since_date _ _ utcnow) by apply stored_body_timestamp.
    rewrite bool_decide_eq_true_2 by done.
    intros E E'.
    apply bind_Ok in E as (a & _ & E). apply bind_Ok in E as (m & _ & E).
    apply bind_Ok in E as (h & _ & E). injection E as <-.
    apply bind_Ok in E' as (a' & _ & E'). apply bind_Ok in E' as (m' & _ & E').
    apply bind_Ok in E' as (h' & _ & E'). injection E' as <-.
    cbn [total_readings total_alerts burglar_alerts fire_alerts].
    rewrite length_app. cbn [length]. split; [lia|done].
Qed.
End IngestThenQuery.

(** ** Listings *)

Lemma found_length c q limit s :
  length (found c q limit s)
  = if decide (limit = 0) then length (window c q s)
    else Nat.min (Z.abs_nat limit) (length (window c q s)).
Proof.
  unfold found, cursor_limit, window. case_decide.
  - by rewrite merge_sort_Permutation.
  - rewrite length_take. by rewrite merge_sort_Permutation.
Qed.

Lemma listing_stored c q limit s rs r :
  mapM timestamp_to_iso (found c q limit s) = Ok rs →
  r ∈ rs →
  ∃ rec t, rec ∈ coll c s
           ∧ matches q (body rec) = true
           ∧ body rec !! "timestamp" = Some (VDate t)
           ∧ r = <["timestamp" := VIso t]> (body rec).
Proof.
  intros E Hr. apply mapM_Ok in E.
  apply list_elem_of_lookup_1 in Hr as [i Hi].
  destruct (Forall2_lookup_r _ _ _ _ _ E Hi) as (d & Hd & Hdr).
  apply timestamp_to_iso_Ok in Hdr as (t & Ht & ->).
  apply list_elem_of_lookup_2, found_elem_of in Hd as (Hm & rec & Hrec & ->).
  by exists rec, t.
Qed.

(** X10: whenever GET /api/alerts answers, with limit L (50 when the
    parameter is absent) and hours H (24 when absent), the answer has at
    most |L| alerts unless L is 0, every alert in it is stamped at or
    after now - H hours, and the alerts come newest first; it answers when
    every alert carries a datetime and now - H hours is a datetime. *)
Theorem get_alerts_window_limit_order s request utcnow :
  ((∀ r, r ∈ alerts s → stamped (body r)) →
   returns (minus_hours utcnow (args_get (arg_hours request) 24)) →
   returns (result (get_alerts request utcnow s)))
  ∧ ∀ rs,
      result (get_alerts request utcnow s) = Ok rs →
      (args_get (arg_limit request) 50 ≠ 0 →
       Z.of_nat (length rs) ≤ Z.abs (args_get (arg_limit request) 50))
      ∧ (∀ r, r ∈ rs →
           ∃ t, r !! "timestamp" = Some (VIso t)
                ∧ utcnow - args_get (arg_hours request) 24 * MS_PER_HOUR ≤ t)
      ∧ newest_first rs.
Proof.
  rewrite get_alerts_result. split.
  - intros Hs [since ->]. by apply (listing_returns Alerts).
  - intros rs E. apply bind_Ok in E as (since & Hsince & E).
    apply minus_hours_Ok in Hsince as <-.
    pose proof (listing_Ok _ _ _ _ _ E) as (Hlen & Hwin & Hsort).
    split; [|done]. intros HL. rewrite Hlen, found_length.
    destruct (decide _); [done|]. lia.
Qed.

(** X11: a request without parameters gets at most 100 sensor readings
    from GET /api/sensors and at most 50 alerts from GET /api/alerts, none
    of them stamped more than 24 hours before the request. *)
Theorem listings_default_to_a_day_and_a_cap s utcnow :
  (∀ rs, result (get_sensors {| arg_hours := None; arg_limit := None |} utcnow s) = Ok rs →
         (length rs ≤ 100)%nat
         ∧ ∀ r, r ∈ rs → ∃ t, r !! "timestamp" = Some (VIso t) ∧ utcnow - 86400000 ≤ t)
  ∧ (∀ rs, result (get_alerts {| arg_hours := None; arg_limit := None |} utcnow s) = Ok rs →
           (length rs ≤ 50)%nat
           ∧ ∀ r, r ∈ rs → ∃ t, r !! "timestamp" = Some (VIso t) ∧ utcnow - 86400000 ≤ t).
Proof.
  rewrite get_sensors_result, get_alerts_result. cbn [arg_hours arg_limit args_get].
  split; intros rs E; apply bind_Ok in E as (since & Hsince & E);
    apply minus_hours_Ok in Hsince; unfold MS_PER_HOUR in Hsince;
    pose proof (listing_Ok _ _ _ _ _ E) as (Hlen & Hwin & _);
    (split; [rewrite Hlen, found_length; destruct (decide _); lia|]);
    intros r Hr; destruct (Hwin r Hr) as (t & Ht & Hle); exists t; (split; [done|lia]).
Qed.

(** X12: a positive limit is met exactly when enough records qualify: an
    answer of GET /api/sensors or GET /api/alerts with limit L > 0 has L
    records if at least L pass the filter, and all of them otherwise. *)
Theorem listings_fill_the_limit s utcnow H L since :
  minus_hours utcnow H = Ok since →
  0 < L →
  (∀ rs, result (get_sensors {| arg_hours := Some H; arg_limit := Some L |} utcnow s) = Ok rs →
         Z.of_nat (length rs)
         = Z.min L (Z.of_nat (length (window SensorReadings (since_query since) s))))
  ∧ (∀ rs, result (get_alerts {| arg_hours := Some H; arg_limit := Some L |} utcnow s) = Ok rs →
           Z.of_nat (length rs)
           = Z.min L (Z.of_nat (length (window Alerts (since_query since) s)))).
Proof.
  intros Hsince HL. rewrite get_sensors_result, get_alerts_result.
  cbn [arg_hours arg_limit args_get]. rewrite Hsince. cbn [mbind outcome_bind].
  split; intros rs E; apply listing_Ok in E as (-> & _); rewrite found_length;
    destruct (decide _); lia.
Qed.

(** X13: the listings make nothing up and alter nothing but the form of
    the timestamp: every record in an answer of GET /api/sensors (GET
    /api/alerts) is a stored sensor reading (alert) that passes the filter,
    field for field, with its datetime turned into the ISO text of the
    same instant. *)
Theorem listings_return_stored_records s request utcnow :
  (∀ rs r, result (get_sensors request utcnow s) = Ok rs → r ∈ rs →
           ∃ rec t, rec ∈ sensor_readings s
                    ∧ body rec !! "timestamp" = Some (VDate t)
                    ∧ r = <["timestamp" := VIso t]> (body rec))
  ∧ (∀ rs r, result (get_alerts request utcnow s) = Ok rs → r ∈ rs →
             ∃ rec t, rec ∈ alerts s
                      ∧ body rec !! "timestamp" = Some (VDate t)
                      ∧ r = <["timestamp" := VIso t]> (body rec)).
Proof.
  rewrite get_sensors_result, get_alerts_result.
  split; intros rs r E Hr; apply bind_Ok in E as (since & _ & E);
    destruct (listing_stored _ _ _ _ _ _ E Hr) as (rec & t & Hrec & _ & Ht & ->);
    by exists rec, t.
Qed.

(** X14: widening the window loses nothing: with limit=0, every record
    that GET /api/sensors (GET /api/alerts) returns for hours=H1 is also
    returned, at the same moment, for any hours=H2 >= H1. *)
Theorem wider_window_keeps_records s utcnow H1 H2 :
  H1 ≤ H2 →
  (∀ rs1 rs2,
     result (get_sensors {| arg_hours := Some H1; arg_limit := Some 0 |} utcnow s) = Ok rs1 →
     result (get_sensors {| arg_hours := Some H2; arg_limit := Some 0 |} utcnow s) = Ok rs2 →
     ∀ r, r ∈ rs1 → r ∈ rs2)
  ∧ (∀ rs1 rs2,
       result (get_alerts {| arg_hours := Some H1; arg_limit := Some 0 |} utcnow s) = Ok rs1 →
       result (get_alerts {| arg_hours := Some H2; arg_limit := Some 0 |} utcnow s) = Ok rs2 →
       ∀ r, r ∈ rs1 → r ∈ rs2).
Proof.
  intros HH. rewrite !get_sensors_result, !get_alerts_result.
  cbn [arg_hours arg_limit args_get].
  split; intros rs1 rs2 E1 E2 r Hr;
    apply bind_Ok in E1 as (since1 & Hs1 & E1); apply bind_Ok in E2 as (since2 & Hs2 & E2);
    apply minus_hours_Ok in Hs1, Hs2; unfold MS_PER_HOUR in Hs1, Hs2;
    destruct (listing_stored _ _ _ _ _ _ E1 Hr) as (rec & t & Hrec & Hm & Ht & ->);
    rewrite (matches_since_date _ _ _ Ht) in Hm; apply bool_decide_eq_true in Hm;
    (eapply listing_every_match; [exact E2|done|done|lia]).
Qed.

(** ** Statistics, further *)





Lemma stats_Ok request utcnow s st :
  result (get_stats request utcnow s) = Ok st →
  ∃ since, minus_hours utcnow (args_get (arg_hours request) 24) = Ok since
           ∧ total_readings st = length (window SensorReadings (since_query since) s)
           ∧ total_alerts st = length (window Alerts (since_query since) s)
           ∧ burglar_alerts st = length (window Alerts (since_type_query since "burglar") s)
           ∧ fire_alerts st = length (window Alerts (since_type_query since "fire") s)
           ∧ rounded (group (window SensorReadings (since_query since) s)) row_avg_temp
             = Ok (avg_temp st)
           ∧ rounded (group (window SensorReadings (since_query since) s)) row_max_temp
             = Ok (max_temp st)
           ∧ rounded (group (window SensorReadings (since_query since) s)) row_avg_humidity
             = Ok (avg_humidity st).
Proof.
  rewrite get_stats_result. intros E.
  apply bind_Ok in E as (since & Hsince & E). exists since. split; [done|].
  cbn [mbind outcome_bind] in E.
  apply bind_Ok in E as (a & Ha & E). apply bind_Ok in E as (m & Hm & E).
  apply bind_Ok in E as (h & Hh & E). by injection E as <-.
Qed.


(** X16: the statistics count what the listings list: for the same moment
    and hours, total_readings is the number of records GET /api/sensors
    returns with limit=0, and total_alerts the number GET /api/alerts
    returns with limit=0. *)
Theorem stats_count_what_listings_list s utcnow H st :
  result (get_stats {| arg_hours := H; arg_limit := None |} utcnow s) = Ok st →
  (∀ rs, result (get_sensors {| arg_hours := H; arg_limit := Some 0 |} utcnow s) = Ok rs →
         total_readings st = length rs)
  ∧ (∀ rs, result (get_alerts {| arg_hours := H; arg_limit := Some 0 |} utcnow s) = Ok rs →
           total_alerts st = length rs).
Proof.
  intros E. apply stats_Ok in E as (since & Hsince & -> & -> & _).
  cbn [arg_hours] in Hsince.
  rewrite get_sensors_result, get_alerts_result. cbn [arg_hours arg_limit args_get].
  rewrite Hsince. cbn [mbind outcome_bind].
  split; intros rs Hrs; symmetry.
  - by apply (listing_zero_length SensorReadings).
  - by apply (listing_zero_length Alerts).
Qed.

Lemma minus_hours_Raise utcnow hours :
  ¬ (DATETIME_MIN ≤ utcnow - hours * MS_PER_HOUR ≤ DATETIME_MAX) →
  minus_hours utcnow hours = Raise OverflowError.
Proof. intros H. unfold minus_hours. by rewrite bool_decide_eq_false_2. Qed.

(** X17: when now - hours falls outside the years 1 to 9999, GET
    /api/sensors, GET /api/alerts and GET /api/stats raise OverflowError
    before any call to the store: nothing is scanned and nothing answered. *)
Theorem out_of_range_hours_raise_before_the_store s request utcnow :
  ¬ (DATETIME_MIN ≤ utcnow - args_get (arg_hours request) 24 * MS_PER_HOUR ≤ DATETIME_MAX) →
  get_sensors request utcnow s = (Raise OverflowError, s, [])
  ∧ get_alerts request utcnow s = (Raise OverflowError, s, [])
  ∧ get_stats request utcnow s = (Raise OverflowError, s, []).
Proof.
  intros H. apply minus_hours_Raise in H. split; [|split].
  - unfold get_sensors, lift. unfold mbind at 1, M_bind. by rewrite H.
  - unfold get_alerts, lift. unfold mbind at 1, M_bind. by rewrite H.
  - by apply get_stats_overflow.
Qed.

Lemma avg_fold_none (os : list (option value)) (a : avg_state) :
  (∀ o, o ∈ os → o ≫= number_of = None) → foldl avg_add a os = a.
Proof.
  revert a. induction os as [|o os IH]; intros a Hos; [done|].
  cbn [foldl]. unfold avg_add at 2. rewrite (Hos o) by left.
  apply IH. intros o' Ho'. apply Hos. by right.
Qed.

Lemma avg_fold_mono (os : list (option value)) (a : avg_state) :
  (a.2 ≤ (foldl avg_add a os).2)%nat.
Proof.
  revert a. induction os as [|o os IH]; intros a; [done|].
  cbn [foldl]. etrans; [|apply IH]. unfold avg_add. destruct (o ≫= number_of); simpl; lia.
Qed.

Lemma avg_fold_some (os : list (option value)) (a : avg_state) o :
  o ∈ os → is_Some (o ≫= number_of) → (a.2 < (foldl avg_add a os).2)%nat.
Proof.
  revert a. induction os as [|o' os IH]; intros a Ho Hn; [by apply elem_of_nil in Ho|].
  cbn [foldl]. apply elem_of_cons in Ho as [<-|Ho].
  - eapply Nat.lt_le_trans; [|apply avg_fold_mono].
    unfold avg_add. destruct Hn as [x ->]. simpl. lia.
  - eapply Nat.le_lt_trans; [|by apply IH].
    unfold avg_add. destruct (o' ≫= number_of); simpl; lia.
Qed.

Lemma avg_result_float (a : avg_state) : (0 < a.2)%nat → ∃ x, avg_result a = VFloat x.
Proof. unfold avg_result. destruct a as [x [|n]]; simpl; [lia|]. eauto. Qed.

Lemma avg_result_null (a : avg_state) : a.2 = 0%nat → avg_result a = VNull.
Proof. unfold avg_result. by intros ->. Qed.

Lemma max_add_number (a v : value) :
  is_number v → a = VNull ∨ is_number a → is_number (max_add a (Some v)).
Proof.
  intros Hv Ha. unfold max_add.
  destruct v; try (destruct Hv as [? Hv]; discriminate Hv);
    destruct Ha as [->|Ha]; try done;
    destruct a; try (destruct Ha as [? Ha]; discriminate Ha);
    by destruct (bson_leb _ _).
Qed.

Lemma max_fold_number (os : list (option value)) (a : value) :
  (∀ o, o ∈ os → ∃ v, o = Some v ∧ is_number v) →
  a = VNull ∨ is_number a →
  os ≠ [] ∨ is_number a →
  is_number (foldl max_add a os).
Proof.
  revert a. induction os as [|o os IH]; intros a Hos Ha Hne.
  - by destruct Hne.
  - cbn [foldl]. destruct (Hos o) as (v & -> & Hv); [left|].
    apply IH.
    + intros o' Ho'. apply Hos. by right.
    + right. by apply max_add_number.
    + right. by apply max_add_number.
Qed.

Lemma round1_number (v : value) : is_number v → ∃ r, round1 v = Ok r ∧ is_number r.
Proof.
  intros [x Hx]. destruct v; try discriminate Hx; simpl.
  - eexists. split; [done|]. by eexists.
  - eexists. split; [done|]. by eexists.
Qed.

Lemma round1_float (x : float) : round1 (VFloat x) = Ok (VFloat (float_round1 x)).
Proof. done. Qed.

Lemma round1_raises (v : value) e : round1 v = Raise e → e = TypeError.
Proof. destruct v; simpl; congruence. Qed.

Lemma group_cons (d : document) (docs : list document) :
  group (d :: docs)
  = [ {| row_avg_temp :=
           avg_result (foldl avg_add (0%float, 0%nat)
                         ((λ d : document, d !! "temp") <$> d :: docs));
         row_max_temp := foldl max_add VNull ((λ d : document, d !! "temp") <$> d :: docs);
         row_avg_humidity :=
           avg_result (foldl avg_add (0%float, 0%nat)
                         ((λ d : document, d !! "humidity") <$> d :: docs)) |} ].
Proof. unfold group. by rewrite group_step_fusion. Qed.

(** X18: GET /api/stats answers whenever now - hours is a datetime and
    every reading of the window has a number, an integer or a float, for
    temp and for humidity: total_readings is the size of the window, and
    on a window that is not empty avg_temp and avg_humidity are floats and
    max_temp is a number. *)
Theorem get_stats_answers_on_numbers s request utcnow since :
  minus_hours utcnow (args_get (arg_hours request) 24) = Ok since →
  (∀ d, d ∈ window SensorReadings (since_query since) s →
        (∃ v, d !! "temp" = Some v ∧ is_number v)
        ∧ (∃ v, d !! "humidity" = Some v ∧ is_number v)) →
  ∃ st, result (get_stats request utcnow s) = Ok st
        ∧ total_readings st = length (window SensorReadings (since_query since) s)
        ∧ (window SensorReadings (since_query since) s ≠ [] →
           (∃ x, avg_temp st = VFloat x)
           ∧ is_number (max_temp st)
           ∧ (∃ x, avg_humidity st = VFloat x)).
Proof.
  intros Hsince Hnum. rewrite get_stats_result, Hsince. cbn [mbind outcome_bind].
  destruct (window SensorReadings (since_query since) s) as [|d docs] eqn:W.
  { eexists. split; [reflexivity|]. split; [done|]. done. }
  rewrite group_cons. unfold rounded.
  cbn [row_avg_temp row_max_temp row_avg_humidity].
  destruct (Hnum d) as [(vt & Hvt & Nt) (vh & Hvh & Nh)]; [left|].
  destruct (avg_result_float (foldl avg_add (0%float, 0%nat)
              ((λ d : document, d !! "temp") <$> d :: docs))) as [at_ Eat].
  { apply (avg_fold_some _ (0%float, 0%nat) (Some vt)).
    - cbn [fmap list_fmap]. rewrite Hvt. left.
    - destruct Nt as [x Hx]. exists x. done. }
  destruct (avg_result_float (foldl avg_add (0%float, 0%nat)
              ((λ d : document, d !! "humidity") <$> d :: docs))) as [ah Eah].
  { apply (avg_fold_some _ (0%float, 0%nat) (Some vh)).
    - cbn [fmap list_fmap]. rewrite Hvh. left.
    - destruct Nh as [x Hx]. exists x. done. }
  destruct (round1_number (foldl max_add VNull ((λ d : document, d !! "temp") <$> d :: docs)))
    as (m & Em & Nm).
  { apply max_fold_number; [|by left|by left].
    intros o Ho. apply list_elem_of_fmap in Ho as (d' & -> & Hd').
    destruct (Hnum d' Hd') as [(v & Hv & Nv) _]. eauto. }
  rewrite Eat, Eah, Em, !round1_float. cbn [mbind outcome_bind].
  eexists. split; [reflexivity|]. split; [done|]. intros _.
  cbn [avg_temp max_temp avg_humidity]. eauto.
Qed.

(** X19: the three aggregates stand or fall together: when the window is
    not empty and no reading in it has a number for temp, or none has a
    number for humidity, GET /api/stats raises TypeError and reports
    nothing, not even the counts. *)
Theorem get_stats_raises_without_numbers s request utcnow since :
  minus_hours utcnow (args_get (arg_hours request) 24) = Ok since →
  window SensorReadings (since_query since) s ≠ [] →
  (∀ d, d ∈ window SensorReadings (since_query since) s → d !! "temp" ≫= number_of = None)
  ∨ (∀ d, d ∈ window SensorReadings (since_query since) s →
          d !! "humidity" ≫= number_of = None) →
  result (get_stats request utcnow s) = Raise TypeError.
Proof.
  intros Hsince Hne Hnone. rewrite get_stats_result, Hsince. cbn [mbind outcome_bind].
  destruct (window SensorReadings (since_query since) s) as [|d docs] eqn:W; [done|].
  rewrite group_cons. unfold rounded.
  cbn [row_avg_temp row_max_temp row_avg_humidity].
  destruct Hnone as [Hnone|Hnone].
  - rewrite (avg_fold_none ((λ d : document, d !! "temp") <$> d :: docs)); [reflexivity|].
    intros o Ho. apply list_elem_of_fmap in Ho as (d' & -> & Hd'). by apply Hnone.
  - rewrite (avg_fold_none ((λ d : document, d !! "humidity") <$> d :: docs)).
    2: { intros o Ho. apply list_elem_of_fmap in Ho as (d' & -> & Hd'). by apply Hnone. }
    destruct (round1 (avg_result (foldl _ _ _))) as [a|e] eqn:Ea;
      [|apply round1_raises in Ea as ->; reflexivity].
    cbn [mbind outcome_bind].
    destruct (round1 (foldl max_add _ _)) as [m|e] eqn:Em;
      [|apply round1_raises in Em as ->; reflexivity].
    reflexivity.
Qed.

Lemma window_elem_of c q s d :
  d ∈ window c q s ↔ matches q d = true ∧ ∃ r, r ∈ coll c s ∧ d = body r.
Proof.
  unfold window. rewrite list_elem_of_filter, list_elem_of_fmap, Is_true_true.
  split.
  - intros (Hm & r & -> & Hr). eauto.
  - intros (Hm & r & Hr & ->). eauto.
Qed.

(** X20: on sensor readings that follow the data model, the max_temp of
    GET /api/stats over a window that is not empty is the rounding of a
    temperature that a reading of the window has and that no temperature
    of the window exceeds. *)
Theorem max_temp_is_the_greatest_in_the_window s request utcnow since :
  minus_hours utcnow (args_get (arg_hours request) 24) = Ok since →
  (∀ r, r ∈ sensor_readings s → sensor_reading (body r)) →
  window SensorReadings (since_query since) s ≠ [] →
  ∃ st m, result (get_stats request utcnow s) = Ok st
          ∧ max_temp st = VFloat (float_round1 m)
          ∧ (∃ d, d ∈ window SensorReadings (since_query since) s
                  ∧ d !! "temp" = Some (VFloat m))
          ∧ ∀ d x, d ∈ window SensorReadings (since_query since) s →
                   d !! "temp" = Some (VFloat x) →
                   Reference.float_leb x m = true.
Proof.
  intros Hsince Hs Hne. rewrite get_stats_result, Hsince. cbn [mbind outcome_bind].
  assert (∀ d, d ∈ window SensorReadings (since_query since) s → sensor_reading d) as Hwin.
  { intros d Hd. apply window_elem_of in Hd as (_ & r & Hr & ->). by apply Hs. }
  destruct (window SensorReadings (since_query since) s) as [|d0 docs] eqn:W; [done|].
  rewrite group_cons. unfold rounded. cbn [row_avg_temp row_max_temp row_avg_humidity].
  destruct (Hwin d0) as (_ & [x0 Hx0] & [y0 Hy0]); [left|].
  destruct (avg_result_float (foldl avg_add (0%float, 0%nat)
              ((λ d : document, d !! "temp") <$> d0 :: docs))) as [at_ ->].
  { apply (avg_fold_some _ (0%float, 0%nat) (Some (VFloat x0))).
    - cbn [fmap list_fmap]. rewrite Hx0. left.
    - by eexists. }
  destruct (avg_result_float (foldl avg_add (0%float, 0%nat)
              ((λ d : document, d !! "humidity") <$> d0 :: docs))) as [ah ->].
  { apply (avg_fold_some _ (0%float, 0%nat) (Some (VFloat y0))).
    - cbn [fmap list_fmap]. rewrite Hy0. left.
    - by eexists. }
  assert (Forall number_or_nothing ((λ d : document, d !! "temp") <$> d0 :: docs)) as Hos.
  { apply Forall_forall. intros o Ho. apply list_elem_of_fmap in Ho as (d & -> & Hd).
    destruct (Hwin d Hd) as (_ & [x Hx] & _). rewrite Hx. right. right. by eexists. }
  rewrite (max_fold_null _ Hos), omap_field.
  destruct (omap (λ d : document, Reference.a_number (d !! "temp")) (d0 :: docs))
    as [|v vs] eqn:E.
  { cbn [omap list_omap] in E. rewrite Hx0 in E. discriminate E. }
  destruct (maximum_is_greatest v vs) as [Hin Hall].
  rewrite <- E in Hin, Hall.
  apply list_elem_of_omap in Hin as (dm & Hdm & Hm).
  destruct (Hwin dm Hdm) as (_ & [m Hxm] & _). rewrite Hxm in Hm.
  cbn [Reference.a_number] in Hm. injection Hm as Hm.
  rewrite <- Hm, !round1_float. cbn [mbind outcome_bind].
  eexists. exists m. split; [reflexivity|]. split; [done|]. split.
  - by exists dm.
  - intros d x Hd Hx.
    assert (Reference.leb (VFloat x) (Reference.maximum v vs) = true) as Hle.
    { apply Hall. apply list_elem_of_omap. exists d. split; [done|]. by rewrite Hx. }
    by rewrite <- Hm in Hle.
Qed.

(** ** The health route and what no route does *)

(** X21: GET /api/health makes no call to the store and answers status ok
    whatever the store holds: the answer is made of the MQTT_BROKER and
    MONGO_DB settings alone, so two processes that agree on these two
    environment variables give the same answer for any stores and
    requests. *)
Theorem health_check_never_looks_at_the_store environ environ' request request' s s' :
  environ !! "MQTT_BROKER" = environ' !! "MQTT_BROKER" →
  environ !! "MONGO_DB" = environ' !! "MONGO_DB" →
  final (health_check environ request s) = s
  ∧ trace (health_check environ request s) = []
  ∧ result (health_check environ request s) = result (health_check environ' request' s')
  ∧ ∃ doc, result (health_check environ request s) = Ok doc
           ∧ doc !! "status" = Some (VStr "ok")
           ∧ (environ !! "MQTT_BROKER" = None → doc !! "mqtt_broker" = Some (VStr "localhost"))
           ∧ (environ !! "MONGO_DB" = None → doc !! "mongo_db" = Some (VStr "room_safety")).
Proof.
  intros Hb Hd. split; [done|]. split; [done|]. split.
  - unfold health_check, jsonify, result, mret, M_ret. cbn [fst].
    unfold MQTT_BROKER, MONGO_DB, getenv. by rewrite Hb, Hd.
  - eexists. split; [reflexivity|]. split; [done|].
    unfold MQTT_BROKER, MONGO_DB, getenv. split.
    + intros ->. done.
    + intros ->. done.
Qed.

Lemma reads_only_intro {A} (n : nat) (s : store) (r : outcome A) (tr : list event) :
  Forall (λ ev, is_scan ev = true) tr → (length tr ≤ n)%nat → reads_only n s (r, s, tr).
Proof. intros Htr Hn. by split. Qed.

Lemma listing_reads_only c (request : args) utcnow limit s :
  reads_only 1 s
    ((since ← lift (minus_hours utcnow (args_get (arg_hours request) 24));
      readings ← find c (since_query since) limit;
      readings ← lift (mapM timestamp_to_iso readings);
      jsonify readings) s).
Proof.
  unfold jsonify, find, lift. unfold mbind at 1 2 3, M_bind, mret, M_ret.
  destruct (minus_hours _ _); simpl.
  - destruct (mapM _ _); simpl; apply reads_only_intro; simpl; try lia; by repeat constructor.
  - apply reads_only_intro; simpl; [constructor|lia].
Qed.

Lemma latest_reads_only c s :
  reads_only 1 s
    ((reading ← find_one c;
      match reading with
      | Some r =>
          if bool_decide (size r ≠ 0%nat) then
            r ← lift (timestamp_to_iso r);
            jsonify r
          else jsonify ∅
      | None => jsonify ∅
      end) s).
Proof.
  unfold jsonify, find_one, lift. unfold mbind, M_bind, mret, M_ret. simpl.
  destruct (head _) as [r|]; simpl.
  - case_bool_decide; simpl.
    + destruct (timestamp_to_iso r); simpl; apply reads_only_intro; simpl; try lia;
        by repeat constructor.
    + apply reads_only_intro; simpl; [by repeat constructor|lia].
  - apply reads_only_intro; simpl; [by repeat constructor|lia].
Qed.

(** X22: no query route writes: whatever the request and whether it answers
    or raises, the store is afterwards what it was, nothing is inserted or
    logged, and the store is read at most once by the listing routes, once
    by the latest routes and five times by GET /api/stats. *)
Theorem routes_only_read request utcnow s :
  reads_only 1 s (get_sensors request utcnow s)
  ∧ reads_only 1 s (get_latest_sensor request s)
  ∧ reads_only 1 s (get_alerts request utcnow s)
  ∧ reads_only 1 s (get_status request s)
  ∧ reads_only 5 s (get_stats request utcnow s).
Proof.
  split; [|split; [|split; [|split]]].
  - apply listing_reads_only.
  - apply latest_reads_only.
  - apply listing_reads_only.
  - apply latest_reads_only.
  - destruct (minus_hours utcnow (args_get (arg_hours request) 24)) as [since|e] eqn:E.
    + rewrite (get_stats_run _ _ _ _ E). apply reads_only_intro; simpl; [|lia].
      by repeat constructor.
    + rewrite (get_stats_overflow _ _ _ _ E). apply reads_only_intro; simpl; [constructor|lia].
Qed.


(** ** The further properties on the sample data *)

Lemma listings_answer s request utcnow :
  returns (minus_hours utcnow (args_get (arg_hours request) 24)) →
  ((∀ r, r ∈ sensor_readings s → stamped (body r)) →
   returns (result (get_sensors request utcnow s)))
  ∧ ((∀ r, r ∈ alerts s → stamped (body r)) →
     returns (result (get_alerts request utcnow s))).
Proof.
  intros [since Hsince]. split; intros Hs.
  - rewrite get_sensors_result, Hsince. by apply (listing_returns SensorReadings).
  - rewrite get_alerts_result, Hsince. by apply (listing_returns Alerts).
Qed.

Lemma listings_unlimited_length s utcnow H since :
  minus_hours utcnow H = Ok since →
  (∀ rs, result (get_sensors {| arg_hours := Some H; arg_limit := Some 0 |} utcnow s) = Ok rs →
         length rs = length (window SensorReadings (since_query since) s))
  ∧ (∀ rs, result (get_alerts {| arg_hours := Some H; arg_limit := Some 0 |} utcnow s) = Ok rs →
           length rs = length (window Alerts (since_query since) s)).
Proof.
  intros Hsince. split; intros rs E.
  - rewrite get_sensors_result in E. cbn [arg_hours arg_limit args_get] in E.
    rewrite Hsince in E. by apply listing_zero_length in E.
  - rewrite get_alerts_result in E. cbn [arg_hours arg_limit args_get] in E.
    rewrite Hsince in E. by apply listing_zero_length in E.
Qed.

Lemma two_at_once_stamped : all_stamped two_at_once.
Proof.
  intros c r Hr. destruct c; unfold two_at_once in Hr; cbn [coll sensor_readings status_logs alerts] in Hr;
    each_record Hr; exists 1000; vm_compute; reflexivity.
Qed.

Lemma three_readings_stamped : all_stamped three_readings.
Proof.
  intros c r Hr. destruct c; unfold three_readings in Hr;
    cbn [coll sensor_readings status_logs alerts] in Hr;
    each_record Hr; eexists; vm_compute; reflexivity.
Qed.

Lemma on_connect_topics_are_stored_witness :
  well_formed sample_loads reading_message {[ "temp" := VFloat 21.35; "humidity" := VFloat 40 ]}
  ∧ topic reading_message ∈ on_connect 0
  ∧ records (final (on_message sample_loads 1000 None reading_message after_one_reading))
    = 2%nat
  ∧ well_formed sample_loads stray_message {[ "temp" := VFloat 21.35; "humidity" := VFloat 40 ]}
  ∧ (topic stray_message ∉ on_connect 0)
  ∧ on_message sample_loads 1000 None stray_message after_one_reading
    = (Ok (), after_one_reading, []).
Proof.
  assert (well_formed sample_loads reading_message
            {[ "temp" := VFloat 21.35; "humidity" := VFloat 40 ]}) as Hd
    by (vm_compute; reflexivity).
  assert (well_formed sample_loads stray_message
            {[ "temp" := VFloat 21.35; "humidity" := VFloat 40 ]}) as Hd'
    by (vm_compute; reflexivity).
  assert (topic reading_message ∈ on_connect 0) as Hin by left.
  assert (topic stray_message ∉ on_connect 0) as Hout.
  { intros H. cbv [on_connect decide decide_rel] in H. simpl in H.
    repeat (apply elem_of_cons in H as [H|H]; [discriminate H|]).
    by apply elem_of_nil in H. }
  split; [exact Hd|]. split; [exact Hin|].
  destruct (on_connect_topics_are_stored sample_loads 1000 None reading_message _
              after_one_reading Hd) as (Hsub & _ & _).
  destruct (Hsub Hin) as (c & _ & _ & Hrec).
  split; [exact Hrec|]. split; [exact Hd'|]. split; [exact Hout|].
  destruct (on_connect_topics_are_stored sample_loads 1000 None stray_message _
              after_one_reading Hd') as (_ & Hstray & _).
  exact (Hstray Hout).
Defined.

Lemma on_message_drops_non_object_witness :
  more_loads (payload list_message) = Ok (VList [VInt 1])
  ∧ (∀ d, VList [VInt 1] ≠ VDict d)
  ∧ final (on_message more_loads 1000 None list_message after_one_reading) = after_one_reading
  ∧ result (on_message more_loads 1000 None list_message after_one_reading) = Ok ()
  ∧ inserts (trace (on_message more_loads 1000 None list_message after_one_reading)) = []
  ∧ prints (trace (on_message more_loads 1000 None list_message after_one_reading))
    = [Failed TypeError].
Proof.
  assert (more_loads (payload list_message) = Ok (VList [VInt 1])) as Hv
    by (vm_compute; reflexivity).
  assert (∀ d, VList [VInt 1] ≠ VDict d) as Hd by (intros d; discriminate).
  split; [exact Hv|]. split; [exact Hd|].
  exact (on_message_drops_non_object more_loads 1000 None list_message _
           after_one_reading Hv Hd).
Defined.

Lemma on_message_write_error_is_logged_witness :
  well_formed sample_loads reading_message {[ "temp" := VFloat 21.35; "humidity" := VFloat 40 ]}
  ∧ (topic reading_message, SensorReadings) ∈ channels
  ∧ final (on_message sample_loads 2000 (Some PyMongoError) reading_message after_one_reading)
    = after_one_reading
  ∧ prints (trace (on_message sample_loads 2000 (Some PyMongoError) reading_message
                     after_one_reading))
    = [Failed PyMongoError].
Proof.
  assert (well_formed sample_loads reading_message
            {[ "temp" := VFloat 21.35; "humidity" := VFloat 40 ]}) as Hd
    by (vm_compute; reflexivity).
  assert ((topic reading_message, SensorReadings) ∈ channels) as Hc by left.
  split; [exact Hd|]. split; [exact Hc|].
  destruct (on_message_write_error_is_logged sample_loads 2000 reading_message _ _
              PyMongoError after_one_reading Hd Hc) as (Hfinal & _ & _ & Hprints & _).
  split; [exact Hfinal|exact Hprints].
Defined.

Lemma latest_is_the_message_just_stored_witness :
  well_formed more_loads with_id_message
    {[ "_id" := VInt 7; "temp" := VFloat 21.35; "humidity" := VFloat 40 ]}
  ∧ topic with_id_message = TOPIC_SENSORS
  ∧ result (get_latest_sensor {| arg_hours := None; arg_limit := None |}
              (final (on_message more_loads 4000 None with_id_message three_readings)))
    = Ok (<["timestamp" := VIso 4000]>
            (stored_body 4000
               {[ "_id" := VInt 7; "temp" := VFloat 21.35; "humidity" := VFloat 40 ]})).
Proof.
  assert (∀ r, r ∈ sensor_readings three_readings →
               ∃ t, body r !! "timestamp" = Some (VDate t) ∧ t < 4000) as Hold.
  { intros r Hr. unfold three_readings in Hr. cbn [sensor_readings] in Hr.
    each_record Hr; [exists 1000|exists 3000|exists 2000];
      (split; [vm_compute; reflexivity|lia]). }
  assert (well_formed more_loads with_id_message
            {[ "_id" := VInt 7; "temp" := VFloat 21.35; "humidity" := VFloat 40 ]}) as Hd
    by (vm_compute; reflexivity).
  split; [exact Hd|]. split; [reflexivity|].
  destruct (latest_is_the_message_just_stored more_loads 4000 with_id_message _
              three_readings {| arg_hours := None; arg_limit := None |} Hd)
    as (Hlatest & _).
  exact (Hlatest eq_refl Hold).
Defined.

Lemma routes_read_their_collections_witness :
  sensor_readings three_readings = sensor_readings one_old_each
  ∧ alerts three_readings = alerts one_old_each
  ∧ status_logs three_readings ≠ status_logs one_old_each
  ∧ result (get_sensors {| arg_hours := Some 1; arg_limit := Some 2 |} 4000 three_readings)
    = result (get_sensors {| arg_hours := Some 1; arg_limit := Some 2 |} 4000 one_old_each)
  ∧ result (get_stats {| arg_hours := Some 1; arg_limit := None |} 4000 three_readings)
    = result (get_stats {| arg_hours := Some 1; arg_limit := None |} 4000 one_old_each).
Proof.
  assert (sensor_readings three_readings = sensor_readings one_old_each) as Hr
    by reflexivity.
  assert (alerts three_readings = alerts one_old_each) as Ha by reflexivity.
  split; [exact Hr|]. split; [exact Ha|]. split; [discriminate|].
  destruct (routes_read_their_collections three_readings one_old_each
              {| arg_hours := Some 1; arg_limit := Some 2 |} 4000)
    as (Hsensors & _ & _ & _).
  destruct (routes_read_their_collections three_readings one_old_each
              {| arg_hours := Some 1; arg_limit := None |} 4000)
    as (_ & _ & _ & Hstats).
  split; [exact (proj1 (Hsensors Hr))|exact (Hstats Hr Ha)].
Defined.

Lemma get_stats_after_alert_witness :
  well_formed more_loads alert_message {[ "type" := VStr "fire" ]}
  ∧ topic alert_message = TOPIC_ALERT
  ∧ minus_hours 2000 (args_get (Some 1) 24) = Ok (-3598000)
  ∧ ∃ st st',
      result (get_stats {| arg_hours := Some 1; arg_limit := None |} 2000 two_at_once) = Ok st
      ∧ result (get_stats {| arg_hours := Some 1; arg_limit := None |} 2000
                  (final (on_message more_loads 1500 None alert_message two_at_once)))
        = Ok st'
      ∧ total_alerts st = 1%nat ∧ total_alerts st' = 2%nat
      ∧ fire_alerts st = 1%nat ∧ fire_alerts st' = 2%nat
      ∧ burglar_alerts st = 0%nat ∧ burglar_alerts st' = 0%nat
      ∧ avg_temp st' = avg_temp st.
Proof.
  assert (well_formed more_loads alert_message {[ "type" := VStr "fire" ]}) as Hd
    by (vm_compute; reflexivity).
  assert (minus_hours 2000 (args_get (Some 1) 24) = Ok (-3598000)) as Hsince
    by (vm_compute; reflexivity).
  split; [exact Hd|]. split; [reflexivity|]. split; [exact Hsince|].
  destruct (get_stats_after_alert more_loads 1500 alert_message _ "fire" two_at_once
              {| arg_hours := Some 1; arg_limit := None |} 2000 (-3598000)
              Hd eq_refl eq_refl Hsince ltac:(lia)) as (_ & Hok).
  assert (∃ st, result (get_stats {| arg_hours := Some 1; arg_limit := None |} 2000
                          two_at_once) = Ok st
                ∧ total_alerts st = 1%nat ∧ fire_alerts st = 1%nat
                ∧ burglar_alerts st = 0%nat) as (st & E & Htotal & Hfire & Hburglar)
    by (eexists; split; [vm_compute; reflexivity|repeat split]).
  pose proof (Hok st E) as Hafter.
  exists st. eexists. split; [exact E|]. split; [exact Hafter|].
  cbn [total_alerts fire_alerts burglar_alerts avg_temp].
  rewrite Htotal, Hfire, Hburglar. repeat split.
Defined.

Lemma reading_stored_is_listed_and_counted_witness :
  well_formed sample_loads reading_message {[ "temp" := VFloat 21.35; "humidity" := VFloat 40 ]}
  ∧ minus_hours 2000 1 = Ok (-3598000)
  ∧ ∃ rs,
      result (get_sensors {| arg_hours := Some 1; arg_limit := Some 0 |} 2000
                (final (on_message sample_loads 1000 None reading_message two_at_once)))
      = Ok rs
      ∧ <["timestamp" := VIso 1000]>
          (stored_body 1000 {[ "temp" := VFloat 21.35; "humidity" := VFloat 40 ]}) ∈ rs.
Proof.
  assert (well_formed sample_loads reading_message
            {[ "temp" := VFloat 21.35; "humidity" := VFloat 40 ]}) as Hd
    by (vm_compute; reflexivity).
  assert (minus_hours 2000 1 = Ok (-3598000)) as Hsince by (vm_compute; reflexivity).
  split; [exact Hd|]. split; [exact Hsince|].
  destruct (reading_stored_is_listed_and_counted sample_loads 1000 reading_message _
              two_at_once 2000 1 (-3598000) Hd eq_refl Hsince ltac:(lia)) as (Hlisted & _).
  destruct (listings_answer
              (final (on_message sample_loads 1000 None reading_message two_at_once))
              {| arg_hours := Some 1; arg_limit := Some 0 |} 2000) as [[rs E] _].
  { exists (-3598000). exact Hsince. }
  { apply (on_message_keeps_stamped sample_loads 1000 None reading_message two_at_once
             two_at_once_stamped SensorReadings). }
  exists rs. split; [exact E|]. exact (Hlisted rs E).
Defined.

Lemma get_alerts_window_limit_order_witness :
  (∀ r, r ∈ alerts two_at_once → stamped (body r))
  ∧ returns (minus_hours 2000 (args_get (Some 1) 24))
  ∧ ∃ rs, result (get_alerts {| arg_hours := Some 1; arg_limit := Some 1 |} 2000 two_at_once)
          = Ok rs
          ∧ Z.of_nat (length rs) ≤ 1
          ∧ newest_first rs.
Proof.
  assert (∀ r, r ∈ alerts two_at_once → stamped (body r)) as Hs.
  { intros r Hr. unfold two_at_once in Hr. cbn [alerts] in Hr.
    each_record Hr. exists 1000. vm_compute. reflexivity. }
  assert (returns (minus_hours 2000 (args_get (Some 1) 24))) as Hsince
    by (exists (-3598000); vm_compute; reflexivity).
  split; [exact Hs|]. split; [exact Hsince|].
  destruct (get_alerts_window_limit_order two_at_once
              {| arg_hours := Some 1; arg_limit := Some 1 |} 2000) as [Hret Hall].
  destruct (Hret Hs Hsince) as [rs E].
  exists rs. split; [exact E|].
  destruct (Hall rs E) as (Hlen & _ & Hsorted).
  split; [|exact Hsorted]. apply Hlen. discriminate.
Defined.

Lemma listings_default_to_a_day_and_a_cap_witness :
  ∃ rs, result (get_sensors {| arg_hours := None; arg_limit := None |} 2000 three_readings)
        = Ok rs
        ∧ (length rs ≤ 100)%nat
        ∧ ∀ r, r ∈ rs → ∃ t, r !! "timestamp" = Some (VIso t) ∧ 2000 - 86400000 ≤ t.
Proof.
  destruct (listings_answer three_readings {| arg_hours := None; arg_limit := None |} 2000)
    as [[rs E] _].
  { exists (-86398000). vm_compute. reflexivity. }
  { apply (three_readings_stamped SensorReadings). }
  exists rs. split; [exact E|].
  destruct (listings_default_to_a_day_and_a_cap three_readings 2000) as [Hsensors _].
  exact (Hsensors rs E).
Defined.

Lemma listings_fill_the_limit_witness :
  minus_hours 4000 1 = Ok (-3596000)
  ∧ 0 < 2
  ∧ length (window SensorReadings (since_query (-3596000)) three_readings) = 3%nat
  ∧ ∃ rs, result (get_sensors {| arg_hours := Some 1; arg_limit := Some 2 |} 4000
                    three_readings) = Ok rs
          ∧ Z.of_nat (length rs) = 2.
Proof.
  assert (minus_hours 4000 1 = Ok (-3596000)) as Hsince by (vm_compute; reflexivity).
  assert (0 < 2) as Hpos by lia.
  assert (length (window SensorReadings (since_query (-3596000)) three_readings) = 3%nat)
    as Hwin by (vm_compute; reflexivity).
  split; [exact Hsince|]. split; [exact Hpos|]. split; [exact Hwin|].
  destruct (listings_answer three_readings {| arg_hours := Some 1; arg_limit := Some 2 |}
              4000) as [[rs E] _].
  { exists (-3596000). exact Hsince. }
  { apply (three_readings_stamped SensorReadings). }
  exists rs. split; [exact E|].
  destruct (listings_fill_the_limit three_readings 4000 1 2 (-3596000) Hsince Hpos)
    as [Hsensors _].
  rewrite (Hsensors rs E), Hwin. reflexivity.
Defined.

Lemma listings_return_stored_records_witness :
  ∃ rs, result (get_alerts {| arg_hours := Some 1; arg_limit := Some 0 |} 2000 two_at_once)
        = Ok rs
        ∧ length rs = 1%nat
        ∧ ∀ r, r ∈ rs →
               ∃ rec t, rec ∈ alerts two_at_once
                        ∧ body rec !! "timestamp" = Some (VDate t)
                        ∧ r = <["timestamp" := VIso t]> (body rec).
Proof.
  assert (minus_hours 2000 1 = Ok (-3598000)) as Hsince by (vm_compute; reflexivity).
  destruct (listings_answer two_at_once {| arg_hours := Some 1; arg_limit := Some 0 |} 2000)
    as [_ [rs E]].
  { exists (-3598000). exact Hsince. }
  { apply (two_at_once_stamped Alerts). }
  exists rs. split; [exact E|]. split.
  { rewrite (proj2 (listings_unlimited_length two_at_once 2000 1 _ Hsince) rs E).
    vm_compute. reflexivity. }
  destruct (listings_return_stored_records two_at_once
              {| arg_hours := Some 1; arg_limit := Some 0 |} 2000) as [_ Halerts].
  intros r Hr. exact (Halerts rs r E Hr).
Defined.

Lemma wider_window_keeps_records_witness :
  1 ≤ 2
  ∧ ∃ rs1 rs2,
      result (get_sensors {| arg_hours := Some 1; arg_limit := Some 0 |} 3602500
                three_readings) = Ok rs1
      ∧ result (get_sensors {| arg_hours := Some 2; arg_limit := Some 0 |} 3602500
                  three_readings) = Ok rs2
      ∧ length rs1 = 1%nat
      ∧ length rs2 = 3%nat
      ∧ ∀ r, r ∈ rs1 → r ∈ rs2.
Proof.
  assert (1 ≤ 2) as Hle by lia.
  split; [exact Hle|].
  assert (minus_hours 3602500 1 = Ok 2500) as Hsince1 by (vm_compute; reflexivity).
  assert (minus_hours 3602500 2 = Ok (-3597500)) as Hsince2 by (vm_compute; reflexivity).
  destruct (listings_answer three_readings {| arg_hours := Some 1; arg_limit := Some 0 |}
              3602500) as [[rs1 E1] _].
  { exists 2500. exact Hsince1. }
  { apply (three_readings_stamped SensorReadings). }
  destruct (listings_answer three_readings {| arg_hours := Some 2; arg_limit := Some 0 |}
              3602500) as [[rs2 E2] _].
  { exists (-3597500). exact Hsince2. }
  { apply (three_readings_stamped SensorReadings). }
  exists rs1, rs2. split; [exact E1|]. split; [exact E2|].
  split.
  { rewrite (proj1 (listings_unlimited_length three_readings 3602500 1 _ Hsince1) rs1 E1).
    vm_compute. reflexivity. }
  split.
  { rewrite (proj1 (listings_unlimited_length three_readings 3602500 2 _ Hsince2) rs2 E2).
    vm_compute. reflexivity. }
  destruct (wider_window_keeps_records three_readings 3602500 1 2 Hle) as [Hsensors _].
  exact (Hsensors rs1 rs2 E1 E2).
Defined.


Lemma stats_count_what_listings_list_witness :
  ∃ st rs,
    result (get_stats {| arg_hours := Some 1; arg_limit := None |} 2000 two_at_once) = Ok st
    ∧ result (get_sensors {| arg_hours := Some 1; arg_limit := Some 0 |} 2000 two_at_once)
      = Ok rs
    ∧ total_readings st = length rs.
Proof.
  assert (∃ st, result (get_stats {| arg_hours := Some 1; arg_limit := None |} 2000
                          two_at_once) = Ok st) as [st E]
    by (eexists; vm_compute; reflexivity).
  destruct (listings_answer two_at_once {| arg_hours := Some 1; arg_limit := Some 0 |} 2000)
    as [[rs Ers] _].
  { exists (-3598000). vm_compute. reflexivity. }
  { apply (two_at_once_stamped SensorReadings). }
  exists st, rs. split; [exact E|]. split; [exact Ers|].
  destruct (stats_count_what_listings_list two_at_once 2000 (Some 1) st E) as [Hsensors _].
  exact (Hsensors rs Ers).
Defined.

Lemma out_of_range_hours_raise_before_the_store_witness :
  ¬ (DATETIME_MIN ≤ 2000 - args_get (Some 100000000000) 24 * MS_PER_HOUR ≤ DATETIME_MAX)
  ∧ get_sensors {| arg_hours := Some 100000000000; arg_limit := None |} 2000 two_at_once
    = (Raise OverflowError, two_at_once, [])
  ∧ get_stats {| arg_hours := Some 100000000000; arg_limit := None |} 2000 two_at_once
    = (Raise OverflowError, two_at_once, []).
Proof.
  assert (¬ (DATETIME_MIN ≤ 2000 - args_get (Some 100000000000) 24 * MS_PER_HOUR
             ≤ DATETIME_MAX)) as Hout.
  { unfold DATETIME_MIN, DATETIME_MAX, MS_PER_HOUR, args_get. lia. }
  split; [exact Hout|].
  destruct (out_of_range_hours_raise_before_the_store two_at_once
              {| arg_hours := Some 100000000000; arg_limit := None |} 2000 Hout)
    as (Hsensors & _ & Hstats).
  split; [exact Hsensors|exact Hstats].
Defined.

Lemma get_stats_answers_on_numbers_witness :
  minus_hours 2000 (args_get (Some 1) 24) = Ok (-3598000)
  ∧ window SensorReadings (since_query (-3598000)) mixed_numbers
    = [ {[ "timestamp" := VDate 1000; "temp" := VInt 21; "humidity" := VFloat 40 ]};
        {[ "timestamp" := VDate 1500; "temp" := VFloat 22.5; "humidity" := VInt 41 ]} ]
  ∧ ∃ st, result (get_stats {| arg_hours := Some 1; arg_limit := None |} 2000 mixed_numbers)
          = Ok st
          ∧ total_readings st = 2%nat
          ∧ (∃ x, avg_temp st = VFloat x)
          ∧ is_number (max_temp st).
Proof.
  assert (minus_hours 2000 (args_get (Some 1) 24) = Ok (-3598000)) as Hsince
    by (vm_compute; reflexivity).
  assert (window SensorReadings (since_query (-3598000)) mixed_numbers
          = [ {[ "timestamp" := VDate 1000; "temp" := VInt 21; "humidity" := VFloat 40 ]};
              {[ "timestamp" := VDate 1500; "temp" := VFloat 22.5; "humidity" := VInt 41 ]} ])
    as Hwin by (vm_compute; reflexivity).
  split; [exact Hsince|]. split; [exact Hwin|].
  destruct (get_stats_answers_on_numbers mixed_numbers
              {| arg_hours := Some 1; arg_limit := None |} 2000 (-3598000) Hsince)
    as (st & E & Htotal & Hagg).
  { intros d Hd. rewrite Hwin in Hd. each_record Hd.
    - split; [exists (VInt 21)|exists (VFloat 40)];
        (split; [vm_compute; reflexivity|eexists; reflexivity]).
    - split; [exists (VFloat 22.5)|exists (VInt 41)];
        (split; [vm_compute; reflexivity|eexists; reflexivity]). }
  exists st. split; [exact E|]. split.
  { rewrite Htotal, Hwin. reflexivity. }
  destruct Hagg as (Havg & Hmax & _).
  { rewrite Hwin. discriminate. }
  split; [exact Havg|exact Hmax].
Defined.

Lemma get_stats_raises_without_numbers_witness :
  minus_hours 2000 (args_get (Some 1) 24) = Ok (-3598000)
  ∧ window SensorReadings (since_query (-3598000)) after_temp_only
    = [ {[ "timestamp" := VDate 1000; "temp" := VFloat 21.35 ]} ]
  ∧ result (get_stats {| arg_hours := Some 1; arg_limit := None |} 2000 after_temp_only)
    = Raise TypeError.
Proof.
  assert (minus_hours 2000 (args_get (Some 1) 24) = Ok (-3598000)) as Hsince
    by (vm_compute; reflexivity).
  assert (window SensorReadings (since_query (-3598000)) after_temp_only
          = [ {[ "timestamp" := VDate 1000; "temp" := VFloat 21.35 ]} ]) as Hwin
    by (vm_compute; reflexivity).
  split; [exact Hsince|]. split; [exact Hwin|].
  apply (get_stats_raises_without_numbers after_temp_only
           {| arg_hours := Some 1; arg_limit := None |} 2000 (-3598000) Hsince).
  - rewrite Hwin. discriminate.
  - right. intros d Hd. rewrite Hwin in Hd. each_record Hd. vm_compute. reflexivity.
Defined.

Lemma max_temp_is_the_greatest_in_the_window_witness :
  minus_hours 4000 (args_get (Some 1) 24) = Ok (-3596000)
  ∧ (∀ r, r ∈ sensor_readings three_readings → sensor_reading (body r))
  ∧ window SensorReadings (since_query (-3596000)) three_readings ≠ []
  ∧ ∃ st m,
      result (get_stats {| arg_hours := Some 1; arg_limit := None |} 4000 three_readings)
      = Ok st
      ∧ max_temp st = VFloat (float_round1 m)
      ∧ (∃ d, d ∈ window SensorReadings (since_query (-3596000)) three_readings
              ∧ d !! "temp" = Some (VFloat m))
      ∧ ∀ d x, d ∈ window SensorReadings (since_query (-3596000)) three_readings →
               d !! "temp" = Some (VFloat x) →
               Reference.float_leb x m = true.
Proof.
  assert (minus_hours 4000 (args_get (Some 1) 24) = Ok (-3596000)) as Hsince
    by (vm_compute; reflexivity).
  assert (∀ r, r ∈ sensor_readings three_readings → sensor_reading (body r)) as Hs.
  { intros r Hr. unfold three_readings in Hr. cbn [sensor_readings] in Hr.
    each_record Hr; (split; [|split]); eexists; vm_compute; reflexivity. }
  assert (window SensorReadings (since_query (-3596000)) three_readings ≠ []) as Hne
    by (vm_compute; discriminate).
  split; [exact Hsince|]. split; [exact Hs|]. split; [exact Hne|].
  exact (max_temp_is_the_greatest_in_the_window three_readings
           {| arg_hours := Some 1; arg_limit := None |} 4000 (-3596000) Hsince Hs Hne).
Defined.

Lemma health_check_never_looks_at_the_store_witness :
  sample_environ !! "MQTT_BROKER" = other_environ !! "MQTT_BROKER"
  ∧ sample_environ !! "MONGO_DB" = other_environ !! "MONGO_DB"
  ∧ sample_environ !! "MONGO_URI" ≠ other_environ !! "MONGO_URI"
  ∧ result (health_check sample_environ {| arg_hours := None; arg_limit := None |}
              empty_store)
    = result (health_check other_environ {| arg_hours := Some 1; arg_limit := None |}
                one_unstamped)
  ∧ result (health_check sample_environ {| arg_hours := None; arg_limit := None |}
              empty_store)
    = Ok {[ "status" := VStr "ok"; "mqtt_broker" := VStr "broker.lan";
            "mongo_db" := VStr "room_safety" ]}.
Proof.
  assert (sample_environ !! "MQTT_BROKER" = other_environ !! "MQTT_BROKER") as Hb
    by (vm_compute; reflexivity).
  assert (sample_environ !! "MONGO_DB" = other_environ !! "MONGO_DB") as Hd
    by (vm_compute; reflexivity).
  split; [exact Hb|]. split; [exact Hd|]. split; [vm_compute; discriminate|].
  destruct (health_check_never_looks_at_the_store sample_environ other_environ
              {| arg_hours := None; arg_limit := None |}
              {| arg_hours := Some 1; arg_limit := None |}
              empty_store one_unstamped Hb Hd) as (_ & _ & Hsame & _).
  split; [exact Hsame|]. vm_compute. reflexivity.
Defined.


(** ** The statistics: how they are computed and what they are *)




